(** * Fingerprint enrollment and verification: model and properties

    A shallow embedding of [fingerprint_processing.py], [database.py] and
    [server.py].  Images are 2-D arrays of 8-bit pixels, the routines of
    the vision libraries (OpenCV, scikit-image, ORB, the brute-force
    matcher) are parameters of the pipeline, and the logic the repository
    itself contains (minutiae scan, density filter, scoring, running
    best, decision rule, duplicate check, routes) is written out.

    Scores are Python floats in the source.  [Scoring64] and [Pipeline64]
    compute them as the program does, in IEEE binary64 with every
    rounding step; the decision rule and the choice of the best
    hypothesis are stated there.  [Scoring] and [Pipeline] compute the
    same expressions in exact rationals, which is enough for the
    properties that hold with a margin.

    The table is modelled twice as well: [Database] is the table as a
    map, which is what the code sees as long as no insert is refused
    (enrollment looks the user up before it saves); [Connections] adds
    the write lock that a refused insert leaves behind. *)

From Stdlib Require Import ZArith QArith Qminmax List Lia Lqa Bool.
From Stdlib Require Import SpecFloat.
From stdpp Require Import gmap strings.
Import ListNotations.

Local Open Scope Z_scope.

(** ** Arrays and Python slices *)

Module Grid.

(** A single-channel [uint8] image of shape [(rows, cols)]. *)
Definition image := list (list Z).

Definition rows (img : image) : Z := Z.of_nat (length img).
Definition cols (img : image) : Z := Z.of_nat (length (hd [] img)).

(** [img[i, j]] for in-range, non-negative indices. *)
Definition getpix (img : image) (i j : Z) : Z :=
  nth (Z.to_nat j) (nth (Z.to_nat i) img []) 0.

(** [l[lo:hi]] for [0 <= lo]: the upper bound is clamped to the length. *)
Definition slice {A} (lo hi : Z) (l : list A) : list A :=
  firstn (Z.to_nat (hi - lo)) (skipn (Z.to_nat lo) l).

(** [img[r0:r1, c0:c1]] *)
Definition slice2 (r0 r1 c0 c1 : Z) (img : image) : image :=
  map (slice c0 c1) (slice r0 r1 img).

(** [v == 255] *)
Definition is255 (v : Z) : bool := v =? 255.

(** [np.sum(w == 255)] *)
Definition count255 (w : image) : Z :=
  Z.of_nat (length (List.filter is255 (concat w))).

(** [range(lo, hi)] *)
Definition range (lo hi : Z) : list Z :=
  map (fun k => lo + Z.of_nat k) (seq 0 (Z.to_nat (hi - lo))).

End Grid.

(** ** Minutiae extraction ([extract_minutiae], after skeletonization) *)

Module Minutiae.
Import Grid.

Definition point := (Z * Z)%type.

Inductive minutiae_type := ending | bifurcation.

Definition USE_MINUTIAE_FILTERING : bool := true.

(** The [if count == 1 / elif count >= 3 / else: continue] cascade. *)
Definition classify (count : Z) : option minutiae_type :=
  if count =? 1 then Some ending
  else if 3 <=? count then Some bifurcation
  else None.

(** [np.sum(skeleton_img[i-1:i+2, j-1:j+2] == 255) - 1] *)
Definition neighbour_count (sk : image) (i j : Z) : Z :=
  count255 (slice2 (i - 1) (i + 2) (j - 1) (j + 2) sk) - 1.

(** [np.sum(skeleton_img[max(i-5,0):i+6, max(j-5,0):j+6] == 255)] *)
Definition local_density (sk : image) (i j : Z) : Z :=
  count255 (slice2 (Z.max (i - 5) 0) (i + 6) (Z.max (j - 5) 0) (j + 6) sk).

(** The two accumulators [minutiae_endings], [minutiae_bifurcations]. *)
Definition acc := (list point * list point)%type.

(** Body of the inner loop at pixel [(i, j)]. *)
Definition visit (filtering : bool) (sk : image) (a : acc) (i j : Z) : acc :=
  if getpix sk i j =? 255 then
    match classify (neighbour_count sk i j) with
    | None => a
    | Some ty =>
        if filtering && (local_density sk i j <? 10) then a
        else match ty with
             | ending => (fst a ++ [(i, j)], snd a)
             | bifurcation => (fst a, snd a ++ [(i, j)])
             end
    end
  else a.

Definition scan_row (filtering : bool) (sk : image) (a : acc) (i : Z) : acc :=
  fold_left (fun a j => visit filtering sk a i j) (range 1 (cols sk - 1)) a.

Definition scan (filtering : bool) (sk : image) : acc :=
  fold_left (scan_row filtering sk) (range 1 (rows sk - 1)) ([], []).

(** [minutiae_endings + minutiae_bifurcations] *)
Definition minutiae_of_skeleton (sk : image) : list point :=
  let '(e, b) := scan USE_MINUTIAE_FILTERING sk in e ++ b.

(** *** Reference notions used to state the properties *)

(** Pixel value with everything outside the array read as background. *)
Definition pix (sk : image) (r c : Z) : Z :=
  if (r <? 0) || (c <? 0) then 0 else getpix sk r c.

Definition on (sk : image) (r c : Z) : bool := pix sk r c =? 255.

Definition count_where (f : Z -> Z -> bool) (rs cs : list Z) : Z :=
  Z.of_nat (length (List.filter (fun rc => f (fst rc) (snd rc)) (list_prod rs cs))).

Definition neighbours8 : list (Z * Z) :=
  [(-1, -1); (-1, 0); (-1, 1); (0, -1); (0, 1); (1, -1); (1, 0); (1, 1)].

(** Number of "on" pixels among the 8 neighbours of [(i, j)]. *)
Definition crossings (sk : image) (i j : Z) : Z :=
  Z.of_nat (length (List.filter (fun d => on sk (i + fst d) (j + snd d)) neighbours8)).

(** Number of "on" pixels of the image in the 11x11 window centred at [(i, j)]. *)
Definition density11 (sk : image) (i j : Z) : Z :=
  count_where (on sk) (range (i - 5) (i + 6)) (range (j - 5) (j + 6)).

Definition interior (sk : image) (i j : Z) : Prop :=
  1 <= i < rows sk - 1 /\ 1 <= j < cols sk - 1.

(** The accumulator a minutia of type [ty] is appended to. *)
Definition sel (ty : minutiae_type) (a : acc) : list point :=
  match ty with ending => fst a | bifurcation => snd a end.

(** What makes the loop body append [(i, j)] to the list of type [ty]. *)
Definition appended (filtering : bool) (sk : image) (i j : Z)
    (ty : minutiae_type) : Prop :=
  getpix sk i j = 255
  /\ classify (neighbour_count sk i j) = Some ty
  /\ (filtering = true -> 10 <= local_density sk i j).

(** The pixels the double loop visits, in the order it visits them. *)
Definition raster (sk : image) : list point :=
  list_prod (range 1 (rows sk - 1)) (range 1 (cols sk - 1)).

Definition minutiae_type_eqb (a b : minutiae_type) : bool :=
  match a, b with
  | ending, ending | bifurcation, bifurcation => true
  | _, _ => false
  end.

(** [p] is an "on" pixel whose 8 neighbours make it a minutia of type
    [ty] and whose 11x11 window holds at least 10 "on" pixels. *)
Definition is_minutia (ty : minutiae_type) (sk : image) (p : point) : bool :=
  on sk (fst p) (snd p)
  && match classify (crossings sk (fst p) (snd p)) with
     | Some t => minutiae_type_eqb t ty
     | None => false
     end
  && (10 <=? density11 sk (fst p) (snd p)).

End Minutiae.

(** ** Similarity scores, running best and decision rule

    The expressions of the source over exact rationals.  [Scoring64]
    below has them in binary64, as the program evaluates them. *)

Module Scoring.
Import Minutiae.
Local Open Scope Q_scope.

(** One ORB descriptor: a row of [uint8] values. *)
Definition descriptor := list Byte.byte.

Definition MATCH_THRESHOLD : Q := 26.

(** [(n / max(a, b)) * 100] with [n], [a], [b] lengths or counts. *)
Definition percentage (n a b : nat) : Q :=
  (inject_Z (Z.of_nat n) / inject_Z (Z.of_nat (Nat.max a b))) * 100.

(** [accuracy_orb], from [len(matches)], [len(descriptors)], [len(stored_desc)]. *)
Definition accuracy_orb (n_matches n_desc n_stored : nat) : Q :=
  percentage n_matches n_desc n_stored.

(** Squared Euclidean distance between two integer points. *)
Definition dist2 (p q : point) : Z :=
  ((fst p - fst q) * (fst p - fst q) + (snd p - snd q) * (snd p - snd q))%Z.

(** Squared distance from [p] to its nearest neighbour in [pts]. *)
Fixpoint nearest2 (pts : list point) (p : point) : option Z :=
  match pts with
  | [] => None
  | q :: rest =>
      match nearest2 rest p with
      | None => Some (dist2 p q)
      | Some d => Some (Z.min (dist2 p q) d)
      end
  end.

(** [tree.query(p, k=1, distance_upper_bound=6)] on the tree built from
    [stored]: the distance to the nearest neighbour when it is closer
    than the bound, infinity ([None]) when there is none.  Distances
    are kept squared, so the bound 6 reads 36. *)
Definition query (stored : list point) (p : point) : option Z :=
  match nearest2 stored p with
  | Some d => if (d <? 6 * 6)%Z then Some d else None
  | None => None
  end.

(** [np.sum(distances != np.inf)] *)
Definition matched_minutiae (stored probe : list point) : nat :=
  length (List.filter (fun d : option Z => if d is Some _ then true else false) (map (query stored) probe)).

Definition accuracy_minutiae (probe stored : list point) : Q :=
  if (0 <? length probe)%nat && (0 <? length stored)%nat then
    percentage (matched_minutiae stored probe) (length probe) (length stored)
  else 0.

(** [final_score = (accuracy_orb * 0.1) + (accuracy_minutiae * 0.9)] *)
Definition final_score (acc_orb acc_min : Q) : Q :=
  (acc_orb * (1 # 10)) + (acc_min * (9 # 10)).

(** The three variables carried through the hypothesis loop. *)
Record best := Best {
  best_final_score : Q;
  best_orb_score : Q;
  best_minutiae_score : Q
}.

Definition best0 : best := Best 0 0 0.

(** [if final_score > best_final_score: ...] *)
Definition update_best (b : best) (acc_orb acc_min : Q) : best :=
  let fs := final_score acc_orb acc_min in
  if Qlt_le_dec (best_final_score b) fs then Best fs acc_orb acc_min else b.

(** The decision taken once after the loop. *)
Definition is_match (b : best) : bool :=
  Qle_bool MATCH_THRESHOLD (best_final_score b)
  || (negb (Qle_bool (best_orb_score b) 45)
      && negb (Qle_bool (best_minutiae_score b) 15)).

(** *** Reference notions used to state the properties *)

(** Some stored point lies closer than 6 pixels to [p]. *)
Definition within_radius (stored : list point) (p : point) : bool :=
  existsb (fun q => (dist2 p q <? 36)%Z) stored.

Definition count_within (stored probe : list point) : nat :=
  length (List.filter (within_radius stored) probe).

(** What one hypothesis does to the running best: nothing when it was
    skipped, an update attempt with its two scores otherwise. *)
Definition rescore (b : best) (h : option (Q * Q)) : best :=
  match h with
  | None => b
  | Some (acc_orb, acc_min) => update_best b acc_orb acc_min
  end.

(** [b] holds the scores of the first hypothesis of [hs] that attains
    the largest fused score. *)
Definition first_best (hs : list (option (Q * Q))) (b : best) : Prop :=
  exists (k : nat) (o m : Q),
    hs !! k = Some (Some (o, m))
    /\ b = Best (final_score o m) o m
    /\ (forall (k' : nat) o' m', hs !! k' = Some (Some (o', m')) ->
          final_score o' m' <= final_score o m)
    /\ (forall (k' : nat) o' m', (k' < k)%nat -> hs !! k' = Some (Some (o', m')) ->
          final_score o' m' < final_score o m).

(** No hypothesis of [hs] was scored above zero and [b] still holds the
    initial values. *)
Definition none_positive (hs : list (option (Q * Q))) (b : best) : Prop :=
  b = best0
  /\ forall (k : nat) o m, hs !! k = Some (Some (o, m)) -> final_score o m <= 0.

End Scoring.

(** ** Storage ([database.py])

    The table as a map from [user_id] to row: what the functions do on a
    database that accepts the write.  [Connections] below adds the
    outcome when it does not, the lock error after a refused insert. *)

Module Database.
Import Minutiae Scoring.

(** The [data] dictionary serialized into the [descriptors] column. *)
Record template := Template {
  orb : list descriptor;
  minutiae : list point;
  username : string;
  phone : string
}.

(** A row of table [fingerprints], keyed by the unique [user_id]. *)
Record row := Row {
  row_username : string;
  row_phone : string;
  row_descriptors : template
}.

(** [INSERT]; a second row for the same [user_id] raises
    [IntegrityError], which is turned into a message. *)
Definition save_fingerprint (user_id : string) (data : template)
    (db : gmap string row) : string * gmap string row :=
  match db !! user_id with
  | Some _ => ("User ID already registered.", db)
  | None =>
      ("Fingerprint registered successfully.",
       <[user_id := Row (username data) (phone data) data]> db)
  end.

(** [SELECT descriptors ... WHERE user_id = ?] then [json.loads]. *)
Definition get_fingerprint_by_id (user_id : string)
    (db : gmap string row) : option template :=
  row_descriptors <$> db !! user_id.

(** [UPDATE fingerprints SET username = ?, phone = ?]: the serialized
    [descriptors] column is left as it is. *)
Definition update_fingerprint (user_id uname ph : string)
    (db : gmap string row) : gmap string row :=
  alter (fun r => Row uname ph (row_descriptors r)) user_id db.

(** Every stored template holds at least one descriptor. *)
Definition templates_have_descriptors (db : gmap string row) : Prop :=
  forall uid r, db !! uid = Some r -> orb (row_descriptors r) <> [].

(** [update_fingerprint] with the message it returns. *)
Definition update_fingerprint_result (user_id uname ph : string)
    (db : gmap string row) : string * gmap string row :=
  ("User " +:+ user_id +:+ " updated successfully.",
   update_fingerprint user_id uname ph db).

(** [DELETE FROM fingerprints WHERE user_id = ?]: the message is the
    same whether or not a row was there. *)
Definition delete_fingerprint (user_id : string)
    (db : gmap string row) : string * gmap string row :=
  ("User " +:+ user_id +:+ " deleted successfully.", delete user_id db).

End Database.

(** ** Enrollment and verification ([fingerprint_processing.py]) *)

Module Pipeline.
Import Grid Minutiae Scoring Database.

(** The library routines the pipeline calls.  [imread_grayscale] is
    [None] for an unreadable file; [contour_areas] gives the areas of
    the external contours found by [is_fingerprint_present] ([None]
    when its own read fails); [orb_descriptors] is the second component
    of [orb.detectAndCompute], [None] when no keypoint is found;
    [bf_match] is [len(bf.match(query, train))]. *)
Record vision := Vision {
  imread_grayscale : string -> option image;
  laplacian_var : image -> Q;
  contour_areas : string -> option (list Q);
  enhance_fingerprint : image -> image;
  threshold_otsu : image -> Z;
  morph_skeletonize : list (list bool) -> list (list bool);
  orb_descriptors : image -> option (list descriptor);
  bf_match : list descriptor -> list descriptor -> nat;
  rotate_image : image -> Z -> image
}.

(** Result dictionary of [verify_fingerprint]. *)
Record result := Result {
  status : string;
  match_ : bool;
  accuracy : Q;
  orb_score : Q;
  minutiae_score : Q;
  res_username : option string;
  message : string
}.

Definition failure (st msg : string) : result :=
  Result st false 0 0 0 None msg.

Definition angles : list Z := [-10; -5; 0; 5; 10].

Section WithVision.
Context (V : vision).

(** [lap_var < threshold] with the default [threshold=5.0] *)
Definition is_image_blurry (img : image) : bool :=
  negb (Qle_bool 5 (laplacian_var V img)).

Definition is_fingerprint_present (image_path : string) : bool :=
  match contour_areas V image_path with
  | None => false
  | Some areas =>
      let large_contours :=
        List.filter (fun a => negb (Qle_bool a 1000)) areas in
      (0 <? length large_contours)%nat
  end.

Definition skeletonize (img : image) : image :=
  let thresh := threshold_otsu V img in
  let binary := map (map (fun v => thresh <? v)) img in
  map (map (fun b : bool => if b then 255 else 0)) (morph_skeletonize V binary).

Definition extract_minutiae (img : image) : list point :=
  minutiae_of_skeleton (skeletonize img).

(** [descriptors is None or len(descriptors) == 0] *)
Definition no_descriptors (d : option (list descriptor)) : bool :=
  match d with
  | None => true
  | Some ds => (length ds =? 0)%nat
  end.

Definition register_fingerprint (image_path user_id uname ph : string)
    (db : gmap string row) : string * gmap string row :=
  match imread_grayscale V image_path with
  | None => ("Image could not be read.", db)
  | Some img =>
      if is_image_blurry img then
        ("Image too blurry. Please capture a clearer fingerprint.", db)
      else if negb (is_fingerprint_present image_path) then
        ("No fingerprint detected! Please place your finger properly.", db)
      else
        let enhanced_image := enhance_fingerprint V img in
        let descriptors := orb_descriptors V enhanced_image in
        let minutiae_points := extract_minutiae enhanced_image in
        if no_descriptors descriptors then ("Fingerprint not detected.", db)
        else
          match get_fingerprint_by_id user_id db with
          | Some _ => ("User ID already registered.", db)
          | None =>
              let data := Template (default [] descriptors) minutiae_points uname ph in
              save_fingerprint user_id data db
          end
  end.

(** One iteration of [for angle in angles]. *)
Definition try_angle (base_image : image) (stored : template)
    (b : best) (angle : Z) : best :=
  let rotated := rotate_image V base_image angle in
  let enhanced_image := enhance_fingerprint V rotated in
  let minutiae_points := extract_minutiae enhanced_image in
  let descriptors := orb_descriptors V enhanced_image in
  if no_descriptors descriptors then b
  else
    let ds := default [] descriptors in
    let acc_orb :=
      accuracy_orb (bf_match V ds (orb stored)) (length ds) (length (orb stored)) in
    let acc_min := accuracy_minutiae minutiae_points (minutiae stored) in
    update_best b acc_orb acc_min.

(** The two scores of the hypothesis at [angle], [None] when the
    iteration is skipped for lack of descriptors. *)
Definition angle_scores (base_image : image) (stored : template)
    (angle : Z) : option (Q * Q) :=
  let enhanced_image := enhance_fingerprint V (rotate_image V base_image angle) in
  let descriptors := orb_descriptors V enhanced_image in
  if no_descriptors descriptors then None
  else
    let ds := default [] descriptors in
    Some (accuracy_orb (bf_match V ds (orb stored)) (length ds) (length (orb stored)),
          accuracy_minutiae (extract_minutiae enhanced_image) (minutiae stored)).

Definition hypothesis_loop (base_image : image) (stored : template) : best :=
  fold_left (try_angle base_image stored) angles best0.

Definition decide_result (stored : template) (b : best) : result :=
  let m := is_match b in
  Result (if m then "match_found" else "no_match") m
         (best_final_score b) (best_orb_score b) (best_minutiae_score b)
         (Some (username stored))
         (if m then "Match found" else "No match found").

Definition verify_fingerprint (image_path user_id : string)
    (db : gmap string row) : result :=
  match imread_grayscale V image_path with
  | None => failure "error" "Invalid image file."
  | Some base_image =>
      if is_image_blurry base_image then
        failure "blurry" "Fingerprint image is too blurry."
      else if negb (is_fingerprint_present image_path) then
        failure "no_fingerprint" "No fingerprint detected. Please try again."
      else
        match get_fingerprint_by_id user_id db with
        | None => failure "no_user" "No fingerprint data found for this user ID."
        | Some stored =>
            decide_result stored (hypothesis_loop base_image stored)
        end
  end.

(** *** Reference notions used to state the properties *)

(** The call gets past the quality gate and the template lookup. *)
Definition reaches_loop (image_path user_id : string) (db : gmap string row)
    (base_image : image) (stored : template) : Prop :=
  imread_grayscale V image_path = Some base_image
  /\ is_image_blurry base_image = false
  /\ is_fingerprint_present image_path = true
  /\ get_fingerprint_by_id user_id db = Some stored.

(** The iteration at [angle] finds no descriptors. *)
Definition skipped (base_image : image) (angle : Z) : bool :=
  no_descriptors
    (orb_descriptors V (enhance_fingerprint V (rotate_image V base_image angle))).

(** The matcher returns at most one match per query descriptor. *)
Definition matcher_bounded : Prop :=
  forall q t : list descriptor, (bf_match V q t <= length q)%nat.

End WithVision.

End Pipeline.

(** ** Binary64 arithmetic *)

Module Binary64.

Definition prec : Z := 53.
Definition emax : Z := 1024.

(** A Python [float]. *)
Definition float := spec_float.

(** [float(n)] for a length or a count (exact below 2^53). *)
Definition of_nat (n : nat) : float :=
  binary_normalize prec emax (Z.of_nat n) 0 false.

Definition mul : float -> float -> float := SFmul prec emax.
Definition add : float -> float -> float := SFadd prec emax.
Definition div : float -> float -> float := SFdiv prec emax.

(** [a < b], [a <= b] and [a == b]; [a > b] is [ltb b a]. *)
Definition ltb : float -> float -> bool := SFltb.
Definition leb : float -> float -> bool := SFleb.
Definition eqb : float -> float -> bool := SFeqb.

Definition zero : float := S754_zero false.

(** The literals [0.1] and [0.9]: the doubles nearest to 1/10 and 9/10. *)
Definition lit_0_1 : float := S754_finite false 7205759403792794 (-56).
Definition lit_0_9 : float := S754_finite false 8106479329266893 (-53).

End Binary64.

(** ** Scores as the program computes them *)

Module Scoring64.
Import Minutiae Binary64.

Definition MATCH_THRESHOLD : float := of_nat 26.

(** [(n / max(a, b)) * 100] *)
Definition percentage (n a b : nat) : float :=
  mul (div (of_nat n) (of_nat (Nat.max a b))) (of_nat 100).

Definition accuracy_orb (n_matches n_desc n_stored : nat) : float :=
  percentage n_matches n_desc n_stored.

Definition accuracy_minutiae (probe stored : list point) : float :=
  if (0 <? length probe)%nat && (0 <? length stored)%nat then
    percentage (Scoring.matched_minutiae stored probe) (length probe) (length stored)
  else zero.

(** [final_score = (accuracy_orb * 0.1) + (accuracy_minutiae * 0.9)] *)
Definition final_score (acc_orb acc_min : float) : float :=
  add (mul acc_orb lit_0_1) (mul acc_min lit_0_9).

Record best := Best {
  best_final_score : float;
  best_orb_score : float;
  best_minutiae_score : float
}.

Definition best0 : best := Best zero zero zero.

(** [if final_score > best_final_score: ...] *)
Definition update_best (b : best) (acc_orb acc_min : float) : best :=
  let fs := final_score acc_orb acc_min in
  if ltb (best_final_score b) fs then Best fs acc_orb acc_min else b.

(** [best_final_score >= MATCH_THRESHOLD or
     (best_orb_score > 45 and best_minutiae_score > 15)] *)
Definition is_match (b : best) : bool :=
  leb MATCH_THRESHOLD (best_final_score b)
  || (ltb (of_nat 45) (best_orb_score b)
      && ltb (of_nat 15) (best_minutiae_score b)).

(** *** Reference notions used to state the properties *)

Definition rescore (b : best) (h : option (float * float)) : best :=
  match h with
  | None => b
  | Some (acc_orb, acc_min) => update_best b acc_orb acc_min
  end.

(** The count as the specification words it: probe points with a stored
    point within a radius of 6 pixels, the radius included. *)
Definition count_within_inclusive (stored probe : list point) : nat :=
  length (List.filter
            (fun p => existsb (fun q => (Scoring.dist2 p q <=? 36)%Z) stored)
            probe).

End Scoring64.

Module Pipeline64.
Import Grid Minutiae Database Pipeline Binary64.

Record result := Result {
  status : string;
  match_ : bool;
  accuracy : float;
  orb_score : float;
  minutiae_score : float;
  res_username : option string;
  message : string
}.

Definition failure (st msg : string) : result :=
  Result st false zero zero zero None msg.

Section WithVision.
Context (V : vision).

(** One iteration of [for angle in angles]. *)
Definition try_angle (base_image : image) (stored : template)
    (b : Scoring64.best) (angle : Z) : Scoring64.best :=
  let rotated := rotate_image V base_image angle in
  let enhanced_image := enhance_fingerprint V rotated in
  let minutiae_points := extract_minutiae V enhanced_image in
  let descriptors := orb_descriptors V enhanced_image in
  if no_descriptors descriptors then b
  else
    let ds := default [] descriptors in
    let acc_orb :=
      Scoring64.accuracy_orb (bf_match V ds (orb stored)) (length ds)
        (length (orb stored)) in
    let acc_min := Scoring64.accuracy_minutiae minutiae_points (minutiae stored) in
    Scoring64.update_best b acc_orb acc_min.

Definition hypothesis_loop (base_image : image) (stored : template) : Scoring64.best :=
  fold_left (try_angle base_image stored) angles Scoring64.best0.

Definition decide_result (stored : template) (b : Scoring64.best) : result :=
  let m := Scoring64.is_match b in
  Result (if m then "match_found" else "no_match") m
         (Scoring64.best_final_score b) (Scoring64.best_orb_score b)
         (Scoring64.best_minutiae_score b)
         (Some (username stored))
         (if m then "Match found" else "No match found").

Definition verify_fingerprint (image_path user_id : string)
    (db : gmap string row) : result :=
  match imread_grayscale V image_path with
  | None => failure "error" "Invalid image file."
  | Some base_image =>
      if is_image_blurry V base_image then
        failure "blurry" "Fingerprint image is too blurry."
      else if negb (is_fingerprint_present V image_path) then
        failure "no_fingerprint" "No fingerprint detected. Please try again."
      else
        match get_fingerprint_by_id user_id db with
        | None => failure "no_user" "No fingerprint data found for this user ID."
        | Some stored =>
            decide_result stored (hypothesis_loop base_image stored)
        end
  end.

(** *** Reference notions used to state the properties *)

(** The two scores of the hypothesis at [angle], [None] when the
    iteration is skipped for lack of descriptors. *)
Definition angle_scores (base_image : image) (stored : template)
    (angle : Z) : option (float * float) :=
  let enhanced_image := enhance_fingerprint V (rotate_image V base_image angle) in
  let descriptors := orb_descriptors V enhanced_image in
  if no_descriptors descriptors then None
  else
    let ds := default [] descriptors in
    Some (Scoring64.accuracy_orb (bf_match V ds (orb stored)) (length ds)
            (length (orb stored)),
          Scoring64.accuracy_minutiae (extract_minutiae V enhanced_image)
            (minutiae stored)).

(** The decision rule on a result [r], with the scores of [r] tied to
    the hypotheses: they are the two scores of one hypothesis and their
    fusion [o * 0.1 + m * 0.9], or the initial zeros; no hypothesis has
    a fused score above the reported one. *)
Definition decision_rule_holds (base_image : image) (stored : template)
    (r : result) : Prop :=
  (match_ r = true
   <-> leb (of_nat 26) (accuracy r) = true
       \/ (ltb (of_nat 45) (orb_score r) = true
           /\ ltb (of_nat 15) (minutiae_score r) = true))
  /\ (status r = "match_found" <-> match_ r = true)
  /\ (status r = "no_match" <-> match_ r = false)
  /\ ((exists a o m,
         In a angles
         /\ angle_scores base_image stored a = Some (o, m)
         /\ orb_score r = o /\ minutiae_score r = m
         /\ accuracy r = add (mul o lit_0_1) (mul m lit_0_9))
      \/ (orb_score r = zero /\ minutiae_score r = zero /\ accuracy r = zero))
  /\ (forall a o m,
        In a angles ->
        angle_scores base_image stored a = Some (o, m) ->
        ltb (accuracy r) (add (mul o lit_0_1) (mul m lit_0_9)) = false)
  /\ (eqb (accuracy r) (of_nat 26) = true -> status r = "match_found")
  /\ (leb (of_nat 26) (accuracy r) = false ->
      ltb (of_nat 45) (orb_score r) && ltb (of_nat 15) (minutiae_score r) = false ->
      status r = "no_match").

(** The three reported scores are those of one hypothesis: none has a
    fused score above it, and none before it, in the order of [angles],
    has a fused score equal to or above it.  When no hypothesis scores
    above zero the scores keep their initial value 0. *)
Definition reports_first_best (base_image : image) (stored : template)
    (r : result) : Prop :=
  (exists (k : nat) (a : Z) (o m : float),
      angles !! k = Some a
      /\ angle_scores base_image stored a = Some (o, m)
      /\ orb_score r = o /\ minutiae_score r = m
      /\ accuracy r = Scoring64.final_score o m
      /\ (forall a' o' m', In a' angles ->
            angle_scores base_image stored a' = Some (o', m') ->
            ltb (Scoring64.final_score o m) (Scoring64.final_score o' m') = false)
      /\ (forall (k' : nat) a' o' m', (k' < k)%nat -> angles !! k' = Some a' ->
            angle_scores base_image stored a' = Some (o', m') ->
            leb (Scoring64.final_score o m) (Scoring64.final_score o' m') = false))
  \/ (orb_score r = zero /\ minutiae_score r = zero /\ accuracy r = zero
      /\ forall a o m, In a angles ->
           angle_scores base_image stored a = Some (o, m) ->
           ltb zero (Scoring64.final_score o m) = false).

End WithVision.

End Pipeline64.

(** ** The table with its write lock *)

Module Connections.
Import Database.

(** The rows, and whether a connection that was abandoned inside a
    write transaction still holds the write lock.  [save_fingerprint]
    returns from its [IntegrityError] handler without closing or rolling
    back, so a refused insert leaves such a connection. *)
Record store := Store {
  rows : gmap string row;
  write_locked : bool
}.

(** A write cannot start while the lock is held; [collected] tells
    whether the abandoned connection has been reclaimed by the garbage
    collector since, which releases the lock. *)
Definition blocked (collected : bool) (st : store) : bool :=
  write_locked st && negb collected.

Definition save_fingerprint (collected : bool) (user_id : string)
    (data : template) (st : store) : string * store :=
  if blocked collected st then
    ("Error saving fingerprint: database is locked", st)
  else
    match rows st !! user_id with
    | Some _ => ("User ID already registered.", Store (rows st) true)
    | None =>
        ("Fingerprint registered successfully.",
         Store (<[user_id := Row (username data) (phone data) data]> (rows st))
               false)
    end.

(** Reading is not held up by the lock. *)
Definition get_fingerprint_by_id (user_id : string) (st : store) : option template :=
  row_descriptors <$> rows st !! user_id.

Definition delete_fingerprint (collected : bool) (user_id : string)
    (st : store) : string * store :=
  if blocked collected st then
    ("Error deleting fingerprint for user_id " +:+ user_id
       +:+ ": database is locked", st)
  else
    ("User " +:+ user_id +:+ " deleted successfully.",
     Store (delete user_id (rows st)) false).

Definition update_fingerprint (collected : bool) (user_id uname ph : string)
    (st : store) : string * store :=
  if blocked collected st then
    ("Error updating fingerprint for user_id " +:+ user_id
       +:+ ": database is locked", st)
  else
    ("User " +:+ user_id +:+ " updated successfully.",
     Store (alter (fun r => Row uname ph (row_descriptors r)) user_id (rows st))
           false).

End Connections.

(** ** The HTTP routes ([server.py]) *)

Module Text.

(** [c.lower()] on ASCII. *)
Definition lower_char (c : Ascii.ascii) : Ascii.ascii :=
  let n := Ascii.nat_of_ascii c in
  if (65 <=? n)%nat && (n <=? 90)%nat then Ascii.ascii_of_nat (n + 32) else c.

(** [s.lower()] on ASCII text. *)
Fixpoint lower (s : string) : string :=
  match s with
  | EmptyString => EmptyString
  | String c rest => String (lower_char c) (lower rest)
  end.

(** [needle in hay] *)
Fixpoint contains (needle hay : string) : bool :=
  String.prefix needle hay
  || match hay with
     | EmptyString => false
     | String _ rest => contains needle rest
     end.

(** Truth value of an optional form field: [None] and [""] are false. *)
Definition truthy (o : option string) : bool :=
  match o with
  | Some s => negb (String.eqb s "")
  | None => false
  end.

End Text.

Module Server.
Import Scoring Database Pipeline Text.

(** The bodies the routes send: a JSON object of scalar fields, a JSON
    array of such objects, or the error page the framework sends when a
    route raises. *)
Inductive jvalue :=
| JNull
| JBool (b : bool)
| JStr (s : string)
| JNum (q : Q).

Definition jobject := list (string * jvalue).

Inductive json :=
| JObj (fields : jobject)
| JArr (items : list jobject)
| ErrorPage.

(** A response: body and HTTP status code. *)
Definition response := (json * Z)%type.

Definition UPLOAD_FOLDER : string := "uploads".

(** [os.path.join(UPLOAD_FOLDER, f"{uuid4().hex}_{file.filename}")];
    the upload is saved there, and that is the file the pipeline reads. *)
Definition upload_path (uuid_hex filename : string) : string :=
  UPLOAD_FOLDER +:+ "/" +:+ uuid_hex +:+ "_" +:+ filename.

Definition message_body (msg : string) : json := JObj [("message", JStr msg)].

(** An exception that leaves a route: status 500. *)
Definition internal_server_error : response := (ErrorPage, 500).

Section WithVision.
(** [file_save path] tells whether [file.save(path)] returns; it raises
    when the path cannot be created, as for a client file name with a
    path separator or one that is too long. *)
Context (V : vision) (file_save : string -> bool).

(** [POST /register]; [file] is the name of the uploaded file. *)
Definition register (uuid_hex : string) (file user_id uname ph : option string)
    (db : gmap string row) : response * gmap string row :=
  if negb (truthy file && truthy user_id && truthy uname && truthy ph) then
    ((message_body "Missing required fields", 400), db)
  else
    let filepath := upload_path uuid_hex (default "" file) in
    if negb (file_save filepath) then (internal_server_error, db)
    else
      let '(result, db') :=
        register_fingerprint V filepath (default "" user_id)
          (default "" uname) (default "" ph) db in
      ((message_body result,
        if contains "success" (lower result) then 200 else 400), db').

(** [POST /verify] *)
Definition verify (uuid_hex : string) (file user_id : option string)
    (db : gmap string row) : response :=
  if negb (truthy file) || negb (truthy user_id) then
    (message_body "Missing input", 400)
  else
    let filepath := upload_path uuid_hex (default "" file) in
    if negb (file_save filepath) then internal_server_error
    else
    let result := verify_fingerprint V filepath (default "" user_id) db in
    if String.eqb (status result) "blurry" then
      (JObj [("match", JBool false); ("status", JStr "blurry");
             ("message", JStr "Image is blurry.")], 400)
    else if String.eqb (status result) "no_fingerprint" then
      (JObj [("match", JBool false); ("status", JStr "no_fingerprint");
             ("message", JStr "No fingerprint pattern detected.")], 422)
    else if negb (match_ result) then
      (JObj [("match", JBool false); ("status", JStr "no_match");
             ("message", JStr "No match found")], 404)
    else
      (JObj [("match", JBool true); ("status", JStr "match_found");
             ("username", match res_username result with
                          | Some u => JStr u
                          | None => JNull
                          end);
             ("accuracy", JNum (accuracy result));
             ("orb_score", JNum (orb_score result));
             ("minutiae_score", JNum (minutiae_score result));
             ("message", JStr "Match found")], 200).

End WithVision.

(** [GET /users]: one object per row, in the order the table yields
    them (not fixed by the query). *)
Definition get_users (db : gmap string row) : response :=
  (JArr (map (fun ur : string * row =>
                [("user_id", JStr (fst ur));
                 ("username", JStr (row_username (snd ur)))])
             (map_to_list db)), 200).

(** [GET /user/<user_id>] *)
Definition get_user (user_id : string) (db : gmap string row) : response :=
  match db !! user_id with
  | Some r =>
      (JObj [("user_id", JStr user_id); ("username", JStr (row_username r));
             ("phone", JStr (row_phone r))], 200)
  | None => (message_body "User not found.", 404)
  end.

(** [DELETE /delete/<user_id>] *)
Definition delete_user (user_id : string)
    (db : gmap string row) : response * gmap string row :=
  let '(result, db') := delete_fingerprint user_id db in
  ((message_body result, 200), db').


End Server.

(** ** Sample skeletons *)

Module Samples.
Import Grid.

Fixpoint row_of_string (s : string) : list Z :=
  match s with
  | EmptyString => []
  | String c rest =>
      (if Ascii.eqb c (Ascii.ascii_of_nat 35) then 255 else 0) :: row_of_string rest
  end.

Definition skeleton_of_rows (l : list string) : image := map row_of_string l.

(** Two ridges: a long one on row 3 and a short one on row 6. *)
Definition two_ridges : image := skeleton_of_rows
  [ ".............";
    ".............";
    ".............";
    ".###########.";
    ".............";
    ".............";
    ".######......";
    ".............";
    ".............";
    ".............";
    ".............";
    ".............";
    "............." ].

(** A fork at [(6, 6)] under a long ridge. *)
Definition fork : image := skeleton_of_rows
  [ ".............";
    ".............";
    ".###########.";
    ".............";
    "....#...#....";
    ".....#.#.....";
    "......#......";
    "......#......";
    "......#......";
    ".............";
    ".............";
    ".............";
    "............." ].

(** A single "on" pixel with one "on" neighbour and nothing else. *)
Definition lone_pair : image := skeleton_of_rows
  [ ".............";
    ".............";
    ".............";
    ".............";
    ".............";
    ".............";
    "......##.....";
    ".............";
    ".............";
    ".............";
    ".............";
    ".............";
    "............." ].

(** Stripes of two grey levels, nowhere saturated. *)
Definition faint : image :=
  repeat [90; 110; 90; 110; 90; 110; 90; 110; 90; 110; 90; 110; 90] 13.

Definition files (path : string) : option image :=
  if String.eqb path "two_ridges.png" then Some two_ridges
  else if String.eqb path "lone_pair.png" then Some lone_pair
  else if String.eqb path "faint.png" then Some faint
  else None.

(** A small instance of the library routines: three readable files,
    all sharp and showing one large contour; images that are already
    thin and binary, left as they are by enhancement, thinning and
    rotation; two descriptors found wherever a pixel is saturated. *)
Definition toy_vision : Pipeline.vision := {|
  Pipeline.imread_grayscale := files;
  Pipeline.laplacian_var := fun _ => 40%Q;
  Pipeline.contour_areas := fun path =>
    match files path with Some _ => Some [1500%Q; 20%Q] | None => None end;
  Pipeline.enhance_fingerprint := fun img => img;
  Pipeline.threshold_otsu := fun _ => 127;
  Pipeline.morph_skeletonize := fun b => b;
  Pipeline.orb_descriptors := fun img =>
    if count255 img =? 0 then None
    else Some [[Byte.x0f; Byte.xa5]; [Byte.x3c; Byte.x99]];
  Pipeline.bf_match := fun q t => Nat.min (length q) (length t);
  Pipeline.rotate_image := fun img _ => img
|}.

(** The database after enrolling ["two_ridges.png"] as user ["u1"]. *)
Definition db1 : gmap string Database.row :=
  snd (Pipeline.register_fingerprint toy_vision "two_ridges.png" "u1" "Ann" "555" ∅).

Definition template1 : Database.template :=
  Database.Template [[Byte.x0f; Byte.xa5]; [Byte.x3c; Byte.x99]]
                    [(3, 1); (6, 1); (6, 6)] "Ann" "555".

(** The same images as they are read back from the upload folder, and
    an upload folder that takes these two files and no other. *)
Definition served_files (path : string) : option image :=
  if String.eqb path "uploads/ab12_two_ridges.png" then Some two_ridges
  else if String.eqb path "uploads/ab12_lone_pair.png" then Some lone_pair
  else None.

Definition served_vision : Pipeline.vision := {|
  Pipeline.imread_grayscale := served_files;
  Pipeline.laplacian_var := fun _ => 40%Q;
  Pipeline.contour_areas := fun path =>
    match served_files path with Some _ => Some [1500%Q; 20%Q] | None => None end;
  Pipeline.enhance_fingerprint := fun img => img;
  Pipeline.threshold_otsu := fun _ => 127;
  Pipeline.morph_skeletonize := fun b => b;
  Pipeline.orb_descriptors := fun img =>
    if count255 img =? 0 then None
    else Some [[Byte.x0f; Byte.xa5]; [Byte.x3c; Byte.x99]];
  Pipeline.bf_match := fun q t => Nat.min (length q) (length t);
  Pipeline.rotate_image := fun img _ => img
|}.

Definition save_ok (path : string) : bool :=
  match served_files path with Some _ => true | None => false end.

(** The database after [POST /register] of ["two_ridges.png"] for ["u1"]. *)
Definition db_served : gmap string Database.row :=
  snd (Server.register served_vision save_ok "ab12" (Some "two_ridges.png")
         (Some "u1") (Some "Ann") (Some "555") ∅).

(** The database after enrolling ["lone_pair.png"] as user ["u2"]. *)
Definition db2 : gmap string Database.row :=
  snd (Pipeline.register_fingerprint toy_vision "lone_pair.png" "u2" "Bob" "556" ∅).

Definition template2 : Database.template :=
  Database.Template [[Byte.x0f; Byte.xa5]; [Byte.x3c; Byte.x99]] [] "Bob" "556".

End Samples.

(** * Properties *)

(** ** Slices and index ranges *)

Module GridFacts.
Import Grid.

Lemma skipn_cons_nth {A} (d : A) (l : list A) :
  forall m x rest, skipn m l = x :: rest -> nth m l d = x /\ skipn (S m) l = rest.
Proof.
  induction l as [|a l IH]; intros m x rest H.
  - destruct m; discriminate.
  - destruct m as [|m]; simpl in *.
    + injection H as -> ->. split; reflexivity.
    + apply IH in H. exact H.
Qed.

Lemma skipn_nil_nth {A} (d : A) (l : list A) :
  forall m, skipn m l = [] -> nth m l d = d /\ skipn (S m) l = [].
Proof.
  induction l as [|a l IH]; intros m H.
  - split; [now destruct m | reflexivity].
  - destruct m as [|m]; simpl in *; [discriminate|]. now apply IH.
Qed.

Lemma list_sum_cons (a : nat) (l : list nat) :
  list_sum (a :: l) = (a + list_sum l)%nat.
Proof. reflexivity. Qed.

(** Summing a weight over [l[m : m+n]] is summing it over the indices
    [m .. m+n-1], as long as reading past the end weighs nothing. *)
Lemma sum_firstn_skipn {A} (w : A -> nat) (d : A) (l : list A) :
  w d = 0%nat ->
  forall n m,
    list_sum (map w (firstn n (skipn m l)))
    = list_sum (map (fun k => w (nth k l d)) (seq m n)).
Proof.
  intros Hd. induction n as [|n IH]; intros m.
  - reflexivity.
  - change (seq m (S n)) with (m :: seq (S m) n).
    rewrite map_cons, list_sum_cons, <- IH.
    destruct (skipn m l) as [|x rest] eqn:E.
    + destruct (skipn_nil_nth d l m E) as [-> ->].
      rewrite Hd. now destruct n.
    + destruct (skipn_cons_nth d l m x rest E) as [-> ->].
      reflexivity.
Qed.

Lemma filter_length_sum {A} (p : A -> bool) (l : list A) :
  length (List.filter p l)
  = list_sum (map (fun x => if p x then 1%nat else 0%nat) l).
Proof.
  induction l as [|a l IH]; [reflexivity|].
  simpl. destruct (p a); simpl; now rewrite IH.
Qed.

Lemma filter_concat_length {A} (p : A -> bool) (ll : list (list A)) :
  length (List.filter p (concat ll))
  = list_sum (map (fun r => length (List.filter p r)) ll).
Proof.
  induction ll as [|r ll IH]; [reflexivity|].
  simpl. now rewrite List.filter_app, length_app, IH.
Qed.

Lemma filter_map_length {A B} (p : B -> bool) (g : A -> B) (l : list A) :
  length (List.filter p (map g l)) = length (List.filter (fun x => p (g x)) l).
Proof.
  induction l as [|a l IH]; [reflexivity|].
  simpl. destruct (p (g a)); simpl; now rewrite IH.
Qed.

Lemma filter_prod_length {A B} (f : A -> B -> bool) (rs : list A) (cs : list B) :
  length (List.filter (fun rc => f (fst rc) (snd rc)) (list_prod rs cs))
  = list_sum (map (fun r => length (List.filter (f r) cs)) rs).
Proof.
  induction rs as [|r rs IH]; [reflexivity|].
  simpl. rewrite List.filter_app, length_app, IH. f_equal.
  now rewrite filter_map_length.
Qed.

Lemma list_sum_ext {A} (f g : A -> nat) (l : list A) :
  (forall x, In x l -> f x = g x) ->
  list_sum (map f l) = list_sum (map g l).
Proof.
  induction l as [|a l IH]; intros H; [reflexivity|].
  simpl. rewrite (H a), IH; auto with datatypes.
Qed.

Lemma range_nat (lo hi : Z) :
  0 <= lo ->
  range lo hi = map Z.of_nat (seq (Z.to_nat lo) (Z.to_nat (hi - lo))).
Proof.
  intros H. unfold range.
  rewrite <- (Nat.add_0_r (Z.to_nat lo)).
  generalize 0%nat as s. generalize (Z.to_nat (hi - lo)) as n.
  induction n as [|n IH]; intros s; [reflexivity|].
  simpl. f_equal; [lia|]. rewrite <- Nat.add_succ_r. apply IH.
Qed.

Lemma in_range (lo hi k : Z) : In k (range lo hi) <-> lo <= k < hi.
Proof.
  unfold range. rewrite in_map_iff. split.
  - intros (n & <- & Hn). apply in_seq in Hn. lia.
  - intros H. exists (Z.to_nat (k - lo)). split; [lia|]. apply in_seq. lia.
Qed.

Lemma seq_shift_map (lo : Z) (a : nat) :
  forall n s,
    map (fun k => lo + Z.of_nat k) (seq (a + s) n)
    = map (fun k => lo + Z.of_nat a + Z.of_nat k) (seq s n).
Proof.
  induction n as [|n IH]; intros s; [reflexivity|].
  simpl. f_equal; [lia|]. rewrite <- Nat.add_succ_r. apply IH.
Qed.

Lemma range_app (lo mid hi : Z) :
  lo <= mid <= hi -> range lo hi = range lo mid ++ range mid hi.
Proof.
  intros H. unfold range.
  replace (Z.to_nat (hi - lo)) with (Z.to_nat (mid - lo) + Z.to_nat (hi - mid))%nat by lia.
  rewrite seq_app, map_app. f_equal.
  rewrite Nat.add_0_l, <- (Nat.add_0_r (Z.to_nat (mid - lo))), seq_shift_map.
  apply map_ext. intros k. lia.
Qed.

Lemma list_sum_all_zero {A} (g : A -> nat) (l : list A) :
  (forall x, In x l -> g x = 0%nat) -> list_sum (map g l) = 0%nat.
Proof.
  induction l as [|a l IH]; intros H; [reflexivity|].
  rewrite map_cons, list_sum_cons, (H a), IH; auto with datatypes.
Qed.

(** Indices below zero never count, so a window may start at
    [max(lo, 0)] instead of [lo]. *)
Lemma list_sum_range_clamp (g : Z -> nat) (lo hi : Z) :
  (forall k, k < 0 -> g k = 0%nat) ->
  list_sum (map g (range lo hi)) = list_sum (map g (range (Z.max lo 0) hi)).
Proof.
  intros Hneg. destruct (Z.le_gt_cases 0 lo) as [H|H].
  - now rewrite Z.max_l by lia.
  - rewrite Z.max_r by lia. destruct (Z.le_gt_cases 0 hi) as [Hh|Hh].
    + rewrite (range_app lo 0 hi) by lia. rewrite map_app, list_sum_app.
      rewrite (list_sum_all_zero g (range lo 0)); [reflexivity|].
      intros k Hk. apply in_range in Hk. apply Hneg. lia.
    + rewrite !list_sum_all_zero; [reflexivity| |].
      * intros k Hk. apply in_range in Hk. lia.
      * intros k Hk. apply in_range in Hk. apply Hneg. lia.
Qed.

End GridFacts.

(** ** The minutiae scan *)

Module MinutiaeFacts.
Import Grid Minutiae GridFacts.

Lemma on_of_nat (sk : image) (r c : nat) :
  on sk (Z.of_nat r) (Z.of_nat c) = is255 (nth c (nth r sk []) 0).
Proof.
  unfold on, pix, getpix, is255.
  replace (Z.of_nat r <? 0) with false by (symmetry; apply Z.ltb_ge; lia).
  replace (Z.of_nat c <? 0) with false by (symmetry; apply Z.ltb_ge; lia).
  simpl. now rewrite !Nat2Z.id.
Qed.

Lemma on_negative (sk : image) (r c : Z) : r < 0 \/ c < 0 -> on sk r c = false.
Proof.
  intros H. unfold on, pix.
  destruct (r <? 0) eqn:Er; [reflexivity|].
  destruct (c <? 0) eqn:Ec; [reflexivity|].
  apply Z.ltb_ge in Er, Ec. lia.
Qed.

(** Counting 255s in one sliced row. *)
Lemma count_row_slice (sk : image) (c0 c1 : Z) (k : nat) :
  0 <= c0 ->
  length (List.filter is255 (slice c0 c1 (nth k sk [])))
  = length (List.filter (on sk (Z.of_nat k)) (range c0 c1)).
Proof.
  intros Hc. unfold slice.
  rewrite filter_length_sum, (sum_firstn_skipn _ 0 _ eq_refl).
  rewrite (range_nat c0 c1 Hc), filter_map_length, filter_length_sum.
  apply list_sum_ext. intros c _. now rewrite on_of_nat.
Qed.

(** The count over a 2-D slice is the count of "on" pixels over the
    corresponding index ranges. *)
Lemma count255_slice2 (sk : image) (r0 r1 c0 c1 : Z) :
  0 <= r0 -> 0 <= c0 ->
  count255 (slice2 r0 r1 c0 c1 sk)
  = count_where (on sk) (range r0 r1) (range c0 c1).
Proof.
  intros Hr Hc. unfold count255, slice2, count_where. f_equal.
  rewrite filter_concat_length, map_map, filter_prod_length.
  unfold slice at 2.
  rewrite (sum_firstn_skipn
             (fun row => length (List.filter is255 (slice c0 c1 row))) []).
  - rewrite (range_nat r0 r1 Hr), map_map.
    apply list_sum_ext. intros k _. now apply count_row_slice.
  - unfold slice. now rewrite skipn_nil, firstn_nil.
Qed.

Lemma local_density_spec (sk : image) (i j : Z) :
  local_density sk i j = density11 sk i j.
Proof.
  unfold local_density, density11.
  rewrite count255_slice2 by lia.
  unfold count_where. f_equal. rewrite !filter_prod_length.
  rewrite <- (list_sum_range_clamp _ (i - 5) (i + 6)).
  - apply list_sum_ext. intros r _.
    rewrite !filter_length_sum.
    rewrite <- (list_sum_range_clamp _ (j - 5) (j + 6)); [reflexivity|].
    intros c Hc. now rewrite on_negative by lia.
  - intros r Hr. rewrite filter_length_sum. apply list_sum_all_zero.
    intros c _. now rewrite on_negative by lia.
Qed.

Lemma range3 (i : Z) : range (i - 1) (i + 2) = [i + -1; i + 0; i + 1].
Proof.
  unfold range. replace (i + 2 - (i - 1)) with 3 by lia.
  simpl. repeat (f_equal; try lia).
Qed.

Lemma on_getpix (sk : image) (i j : Z) :
  0 <= i -> 0 <= j -> on sk i j = (getpix sk i j =? 255).
Proof.
  intros Hi Hj. unfold on, pix.
  destruct (i <? 0) eqn:Ei; [apply Z.ltb_lt in Ei; lia|].
  destruct (j <? 0) eqn:Ej; [apply Z.ltb_lt in Ej; lia|].
  reflexivity.
Qed.

(** Around an "on" pixel, the window count minus the centre is the
    number of "on" pixels among the 8 neighbours. *)
Lemma neighbour_count_spec (sk : image) (i j : Z) :
  1 <= i -> 1 <= j -> getpix sk i j = 255 ->
  neighbour_count sk i j = crossings sk i j.
Proof.
  intros Hi Hj Hon. unfold neighbour_count.
  rewrite count255_slice2 by lia. rewrite !range3.
  assert (Hc : on sk (i + 0) (j + 0) = true).
  { rewrite !Z.add_0_r, on_getpix by lia. now rewrite Hon. }
  unfold count_where, crossings, neighbours8. cbn [list_prod map app fst snd List.filter].
  rewrite Hc.
  destruct (on sk (i + -1) (j + -1)), (on sk (i + -1) (j + 0)),
    (on sk (i + -1) (j + 1)), (on sk (i + 0) (j + -1)),
    (on sk (i + 0) (j + 1)), (on sk (i + 1) (j + -1)),
    (on sk (i + 1) (j + 0)), (on sk (i + 1) (j + 1)); reflexivity.
Qed.

Lemma classify_ending (n : Z) : classify n = Some ending <-> n = 1.
Proof.
  unfold classify. destruct (n =? 1) eqn:E1.
  - apply Z.eqb_eq in E1. tauto.
  - apply Z.eqb_neq in E1. destruct (3 <=? n); split; (discriminate || lia).
Qed.

Lemma classify_bifurcation (n : Z) : classify n = Some bifurcation <-> 3 <= n.
Proof.
  unfold classify. destruct (n =? 1) eqn:E1.
  - apply Z.eqb_eq in E1. split; [discriminate | lia].
  - destruct (3 <=? n) eqn:E3.
    + apply Z.leb_le in E3. tauto.
    + apply Z.leb_gt in E3. split; [discriminate | lia].
Qed.

Lemma classify_none (n : Z) : classify n = None <-> n <> 1 /\ n < 3.
Proof.
  unfold classify. destruct (n =? 1) eqn:E1.
  - apply Z.eqb_eq in E1. split; [discriminate | lia].
  - apply Z.eqb_neq in E1. destruct (3 <=? n) eqn:E3.
    + apply Z.leb_le in E3. split; [discriminate | lia].
    + apply Z.leb_gt in E3. tauto.
Qed.

(** One visit appends at most the visited pixel, to one list. *)
Lemma visit_sel (ty : minutiae_type) (flt : bool) (sk : image) (a : acc)
    (i j : Z) (p : point) :
  In p (sel ty (visit flt sk a i j))
  <-> In p (sel ty a) \/ (p = (i, j) /\ appended flt sk i j ty).
Proof.
  unfold visit, appended.
  destruct (getpix sk i j =? 255) eqn:Epix.
  2:{ apply Z.eqb_neq in Epix. tauto. }
  apply Z.eqb_eq in Epix.
  destruct (classify (neighbour_count sk i j)) as [ty'|] eqn:Ecl.
  2:{ split; [tauto|]. intros [H|(_ & _ & H & _)]; [exact H | discriminate]. }
  destruct (flt && (local_density sk i j <? 10)) eqn:Eflt.
  - apply andb_true_iff in Eflt. destruct Eflt as [-> Hd]. apply Z.ltb_lt in Hd.
    split; [tauto|]. intros [H|(_ & _ & _ & H)]; [exact H|].
    specialize (H eq_refl). lia.
  - assert (Hkeep : flt = true -> 10 <= local_density sk i j).
    { intros ->. simpl in Eflt. apply Z.ltb_ge in Eflt. exact Eflt. }
    destruct ty, ty'; simpl; rewrite ?in_app_iff; simpl; split;
      try tauto; intros [H|H]; try tauto;
      try (destruct H as (_ & _ & H & _); discriminate);
      try (left; tauto); intuition (subst; auto).
Qed.

Lemma fold_visit_sel (ty : minutiae_type) (flt : bool) (sk : image)
    (i : Z) (p : point) (js : list Z) :
  forall a,
    In p (sel ty (fold_left (fun a j => visit flt sk a i j) js a))
    <-> In p (sel ty a)
        \/ exists j, In j js /\ p = (i, j) /\ appended flt sk i j ty.
Proof.
  induction js as [|j js IH]; intros a; simpl.
  - split; [tauto|]. intros [H|(j & [] & _)]. exact H.
  - rewrite IH, visit_sel. split.
    + intros [[H|H]|(j' & Hin & H)]; [tauto | right; exists j; tauto |].
      right. exists j'. tauto.
    + intros [H|(j' & [<-|Hin] & H)]; [tauto | tauto |].
      right. exists j'. tauto.
Qed.

Lemma fold_scan_row_sel (ty : minutiae_type) (flt : bool) (sk : image)
    (p : point) (rs : list Z) :
  forall a,
    In p (sel ty (fold_left (scan_row flt sk) rs a))
    <-> In p (sel ty a)
        \/ exists i j, In i rs /\ In j (range 1 (cols sk - 1))
                       /\ p = (i, j) /\ appended flt sk i j ty.
Proof.
  induction rs as [|i rs IH]; intros a; cbn [fold_left].
  - split; [tauto|]. intros [H|(i & j & [] & _)]. exact H.
  - rewrite IH. unfold scan_row. rewrite fold_visit_sel. split.
    + intros [[H|(j & Hj & H)]|(i' & j & Hi & H)]; [tauto | |].
      * right. exists i, j. simpl. tauto.
      * right. exists i', j. simpl. tauto.
    + intros [H|(i' & j & [<-|Hi] & H)]; [tauto | |].
      * left. right. exists j. tauto.
      * right. exists i', j. tauto.
Qed.

(** What the double loop collects: exactly the interior pixels whose
    visit appends them. *)
Lemma scan_sel (ty : minutiae_type) (flt : bool) (sk : image) (i j : Z) :
  In (i, j) (sel ty (scan flt sk))
  <-> interior sk i j /\ appended flt sk i j ty.
Proof.
  unfold scan. rewrite fold_scan_row_sel. unfold interior. split.
  - intros [H|(i' & j' & Hi & Hj & Heq & H)].
    + destruct ty; destruct H.
    + injection Heq as -> ->. apply in_range in Hi, Hj. tauto.
  - intros ((Hi & Hj) & H). right. exists i, j.
    rewrite !in_range. tauto.
Qed.

(** The same, with the window counts read as pixel counts. *)
Lemma scan_sel_spec (ty : minutiae_type) (flt : bool) (sk : image) (i j : Z) :
  In (i, j) (sel ty (scan flt sk))
  <-> interior sk i j /\ on sk i j = true
      /\ classify (crossings sk i j) = Some ty
      /\ (flt = true -> 10 <= density11 sk i j).
Proof.
  rewrite scan_sel. unfold appended, interior.
  rewrite local_density_spec. split.
  - intros ((Hi & Hj) & Hon & Hcl & Hd).
    rewrite neighbour_count_spec in Hcl by (lia || assumption).
    rewrite on_getpix by lia. rewrite Hon. tauto.
  - intros ((Hi & Hj) & Hon & Hcl & Hd).
    rewrite on_getpix in Hon by lia. apply Z.eqb_eq in Hon.
    rewrite neighbour_count_spec by (lia || assumption). tauto.
Qed.

Lemma in_minutiae_of_skeleton (sk : image) (p : point) :
  In p (minutiae_of_skeleton sk)
  <-> In p (fst (scan USE_MINUTIAE_FILTERING sk))
      \/ In p (snd (scan USE_MINUTIAE_FILTERING sk)).
Proof.
  unfold minutiae_of_skeleton.
  destruct (scan USE_MINUTIAE_FILTERING sk) as [e b]. apply in_app_iff.
Qed.


(** C6: with the noise filter enabled (the default), a candidate (an
    interior "on" pixel whose neighbour count is 1 or at least 3) is in
    the returned set exactly when the 11x11 window centred on it,
    cut at the image borders, holds at least 10 "on" pixels; below
    that density it is discarded. *)
Theorem density_filter (sk : image) (i j : Z) :
  interior sk i j ->
  on sk i j = true ->
  crossings sk i j = 1 \/ 3 <= crossings sk i j ->
  (In (i, j) (minutiae_of_skeleton sk) <-> 10 <= density11 sk i j).
Proof.
  intros Hint Hon Hcr.
  rewrite in_minutiae_of_skeleton.
  change (fst ?a) with (sel ending a). change (snd ?a) with (sel bifurcation a).
  rewrite !scan_sel_spec, classify_ending, classify_bifurcation.
  unfold USE_MINUTIAE_FILTERING. split.
  - intros [H|H]; now apply H.
  - intros Hd. destruct Hcr as [H1|H3]; [left | right]; tauto.
Qed.


Lemma density_filter_witness :
  In (6, 6) (minutiae_of_skeleton Samples.two_ridges)
  <-> 10 <= density11 Samples.two_ridges 6 6.
Proof.
  apply (density_filter Samples.two_ridges 6 6).
  - unfold interior. vm_compute. intuition discriminate.
  - reflexivity.
  - left. reflexivity.
Defined.

(** The ending at [(6, 6)] is kept, the one at [(3, 11)] has only 7
    "on" pixels around it and is dropped. *)
Example two_ridges_minutiae :
  minutiae_of_skeleton Samples.two_ridges = [(3, 1); (6, 1); (6, 6)]
  /\ fst (scan false Samples.two_ridges) = [(3, 1); (3, 11); (6, 1); (6, 6)]
  /\ density11 Samples.two_ridges 3 11 = 7.
Proof. repeat split; reflexivity. Qed.

Example fork_minutiae :
  scan true Samples.fork = ([(2, 1); (2, 11); (4, 4); (4, 8)], [(6, 6)])
  /\ crossings Samples.fork 6 6 = 3.
Proof. split; reflexivity. Qed.

(** Isolated pixels qualify by their neighbour count but are dropped. *)
Example lone_pair_minutiae :
  fst (scan false Samples.lone_pair) = [(6, 6); (6, 7)]
  /\ minutiae_of_skeleton Samples.lone_pair = [].
Proof. split; reflexivity. Qed.

End MinutiaeFacts.

(** ** Scores *)

Module ScoringFacts.
Import Minutiae Scoring GridFacts.
Local Open Scope Q_scope.

Lemma percentage_nonneg (n a b : nat) : 0 <= percentage n a b.
Proof.
  unfold percentage, Qdiv.
  apply Qmult_le_0_compat; [|discriminate].
  apply Qmult_le_0_compat.
  - change 0 with (inject_Z 0). rewrite <- Zle_Qle. lia.
  - apply Qinv_le_0_compat.
    change 0 with (inject_Z 0). rewrite <- Zle_Qle. lia.
Qed.

Lemma accuracy_minutiae_nonneg (probe stored : list point) :
  0 <= accuracy_minutiae probe stored.
Proof.
  unfold accuracy_minutiae.
  destruct (_ && _); [apply percentage_nonneg | apply Qle_refl].
Qed.

Lemma percentage_full (n : nat) : (0 < n)%nat -> percentage n n n == 100.
Proof.
  intros H. unfold percentage. rewrite Nat.max_id. field.
  change 0 with (inject_Z 0). rewrite inject_Z_injective. lia.
Qed.

(** The nearest neighbour is closer than the bound exactly when some
    stored point is. *)
Lemma nearest2_within (stored : list point) (p : point) :
  match nearest2 stored p with
  | Some d => (d <? 36)%Z
  | None => false
  end = within_radius stored p.
Proof.
  unfold within_radius. induction stored as [|q rest IH]; [reflexivity|].
  cbn [nearest2 existsb]. rewrite <- IH.
  destruct (nearest2 rest p) as [d|].
  - destruct (Z.min_spec (dist2 p q) d) as [[Hlt ->]|[Hle ->]];
      destruct (dist2 p q <? 36)%Z eqn:E1, (d <? 36)%Z eqn:E2;
      try reflexivity;
      rewrite ?Z.ltb_lt, ?Z.ltb_ge in *; lia.
  - now rewrite orb_false_r.
Qed.

Lemma query_within (stored : list point) (p : point) :
  (if query stored p is Some _ then true else false) = within_radius stored p.
Proof.
  rewrite <- nearest2_within. unfold query.
  destruct (nearest2 stored p) as [d|]; [|reflexivity].
  change (6 * 6)%Z with 36%Z. now destruct (d <? 36)%Z.
Qed.

Lemma matched_minutiae_count (stored probe : list point) :
  matched_minutiae stored probe = count_within stored probe.
Proof.
  unfold matched_minutiae, count_within.
  rewrite filter_map_length. f_equal.
  apply List.filter_ext. intros p. apply query_within.
Qed.

Lemma within_radius_self (stored : list point) (p : point) :
  In p stored -> within_radius stored p = true.
Proof.
  intros H. unfold within_radius. apply existsb_exists.
  exists p. split; [exact H|]. unfold dist2. apply Z.ltb_lt. lia.
Qed.

Lemma count_within_self (pts : list point) :
  count_within pts pts = length pts.
Proof.
  unfold count_within. f_equal.
  apply forallb_filter_id. apply forallb_forall.
  intros p. apply within_radius_self.
Qed.

End ScoringFacts.

(** ** The running best *)

Module LoopFacts.
Import Scoring.
Local Open Scope Q_scope.

Lemma update_best_cases (b : best) (o m : Q) :
  (best_final_score b < final_score o m
   /\ update_best b o m = Best (final_score o m) o m)
  \/ (final_score o m <= best_final_score b /\ update_best b o m = b).
Proof.
  unfold update_best.
  destruct (Qlt_le_dec (best_final_score b) (final_score o m)); [left | right]; auto.
Qed.

Lemma fold_left_snoc {A B} (f : A -> B -> A) (l : list B) (x : B) (a : A) :
  fold_left f (l ++ [x]) a = f (fold_left f l a) x.
Proof. now rewrite fold_left_app. Qed.

Lemma first_best_skip (hs : list (option (Q * Q))) (b : best) :
  first_best hs b -> first_best (hs ++ [None]) b.
Proof.
  intros (k & o & m & Hk & Hb & Hmax & Hfirst).
  exists k, o, m. repeat split.
  - rewrite lookup_app_l; [exact Hk | eapply lookup_lt_Some; exact Hk].
  - exact Hb.
  - intros k' o' m' H. apply lookup_snoc_Some in H.
    destruct H as [[_ H]|[_ H]]; [eauto | discriminate].
  - intros k' o' m' Hlt H. apply lookup_snoc_Some in H.
    destruct H as [[_ H]|[_ H]]; [eauto | discriminate].
Qed.

Lemma none_positive_skip (hs : list (option (Q * Q))) (b : best) :
  none_positive hs b -> none_positive (hs ++ [None]) b.
Proof.
  intros [Hb Hall]. split; [exact Hb|].
  intros k o m H. apply lookup_snoc_Some in H.
  destruct H as [[_ H]|[_ H]]; [eauto | discriminate].
Qed.

(** The state of the loop after the hypotheses [hs]. *)
Lemma loop_invariant (hs : list (option (Q * Q))) :
  first_best hs (fold_left rescore hs best0)
  \/ none_positive hs (fold_left rescore hs best0).
Proof.
  induction hs as [|h hs IH] using rev_ind.
  - right. split; [reflexivity|]. intros k o m H. discriminate.
  - rewrite fold_left_snoc. set (b := fold_left rescore hs best0) in *.
    destruct h as [[o m]|]; cbn [rescore].
    2:{ destruct IH; [left; now apply first_best_skip
                     | right; now apply none_positive_skip]. }
    destruct (update_best_cases b o m) as [[Hlt ->]|[Hle ->]].
    + (* a new best, at the last index *)
      left. exists (length hs), o, m.
      assert (Hle : forall (k' : nat) o' m', hs !! k' = Some (Some (o', m')) ->
                      final_score o' m' <= best_final_score b).
      { destruct IH as [(k & o1 & m1 & _ & Hb & Hmax & _)|[Hb Hall]];
          rewrite Hb; cbn [best_final_score best0]; eauto. }
      repeat split.
      * apply lookup_snoc_Some. right. auto.
      * intros k' o' m' H. apply lookup_snoc_Some in H.
        destruct H as [[_ H]|[_ H]].
        -- apply Qlt_le_weak. eapply Qle_lt_trans; [eapply Hle; exact H | exact Hlt].
        -- injection H as <- <-. apply Qle_refl.
      * intros k' o' m' Hk' H. apply lookup_snoc_Some in H.
        destruct H as [[_ H]|[Heq _]]; [|lia].
        eapply Qle_lt_trans; [eapply Hle; exact H | exact Hlt].
    + (* the best so far stands *)
      destruct IH as [(k & o1 & m1 & Hk & Hb & Hmax & Hfirst)|[Hb Hall]].
      * left. exists k, o1, m1. repeat split.
        -- rewrite lookup_app_l; [exact Hk | eapply lookup_lt_Some; exact Hk].
        -- exact Hb.
        -- intros k' o' m' H. apply lookup_snoc_Some in H.
           destruct H as [[_ H]|[_ H]]; [eauto|].
           injection H as <- <-. rewrite Hb in Hle. exact Hle.
        -- intros k' o' m' Hk' H. apply lookup_snoc_Some in H.
           destruct H as [[_ H]|[Heq _]]; [eauto|].
           apply lookup_lt_Some in Hk. lia.
      * right. split; [exact Hb|].
        intros k' o' m' H. apply lookup_snoc_Some in H.
        destruct H as [[_ H]|[_ H]]; [eauto|].
        injection H as <- <-. rewrite Hb in Hle. exact Hle.
Qed.

(** The reported fused score is the fusion of the two reported scores. *)
Lemma loop_fused (hs : list (option (Q * Q))) :
  let b := fold_left rescore hs best0 in
  best_final_score b == final_score (best_orb_score b) (best_minutiae_score b).
Proof.
  cbv zeta.
  destruct (loop_invariant hs) as [(k & o & m & _ & -> & _)|[-> _]].
  - reflexivity.
  - reflexivity.
Qed.

(** The reported fused score bounds the score of every hypothesis. *)
Lemma loop_upper_bound (hs : list (option (Q * Q))) (k : nat) (o m : Q) :
  hs !! k = Some (Some (o, m)) ->
  final_score o m <= best_final_score (fold_left rescore hs best0).
Proof.
  intros H.
  destruct (loop_invariant hs) as [(k1 & o1 & m1 & _ & -> & Hmax & _)|[-> Hall]];
    cbn [best_final_score best0]; eauto.
Qed.

Lemma final_score_zero (o m : Q) :
  0 <= o -> 0 <= m -> final_score o m <= 0 -> o == 0 /\ m == 0.
Proof. unfold final_score. intros Ho Hm H. split; lra. Qed.

Lemma is_match_spec (b : best) :
  is_match b = true
  <-> 26 <= best_final_score b
      \/ (45 < best_orb_score b /\ 15 < best_minutiae_score b).
Proof.
  unfold is_match, MATCH_THRESHOLD.
  rewrite orb_true_iff, andb_true_iff, !negb_true_iff, Qle_bool_iff.
  rewrite <- !not_true_iff_false, !Qle_bool_iff.
  split; (intros [H|[H1 H2]]; [left; exact H | right]).
  - split; apply Qnot_le_lt; assumption.
  - split; apply Qlt_not_le; assumption.
Qed.

(** The boundary and the fallback clause on concrete scores. *)
Example decision_boundary :
  is_match (Best 26 80 20) = true
  /\ is_match (Best (25999 # 1000) 45 (23888 # 1000)) = false
  /\ is_match (Best (184 # 10) 46 16) = true
  /\ is_match (Best (18 # 1) 45 15) = false.
Proof. repeat split; reflexivity. Qed.

End LoopFacts.

(** ** Enrollment and verification *)

Module PipelineFacts.
Import Grid Minutiae Scoring Database Pipeline.
Import ScoringFacts LoopFacts.

Section WithVision.
Context (V : vision).

Lemma try_angle_rescore (base : image) (stored : template) (b : best) (a : Z) :
  try_angle V base stored b a = rescore b (angle_scores V base stored a).
Proof.
  unfold try_angle, angle_scores.
  now destruct (no_descriptors _).
Qed.

Lemma hypothesis_loop_rescore (base : image) (stored : template) :
  hypothesis_loop V base stored
  = fold_left rescore (map (angle_scores V base stored) angles) best0.
Proof.
  unfold hypothesis_loop. generalize best0. generalize angles.
  induction l as [|a l IH]; intros b; [reflexivity|].
  cbn [fold_left map]. now rewrite IH, try_angle_rescore.
Qed.

Lemma angle_scores_nonneg (base : image) (stored : template) (a : Z) (o m : Q) :
  angle_scores V base stored a = Some (o, m) -> (0 <= o /\ 0 <= m)%Q.
Proof.
  unfold angle_scores. destruct (no_descriptors _); [discriminate|].
  intros H. injection H as <- <-.
  split; [apply percentage_nonneg | apply accuracy_minutiae_nonneg].
Qed.

Lemma verify_reaches (path uid : string) (db : gmap string row)
    (base : image) (stored : template) :
  reaches_loop V path uid db base stored ->
  verify_fingerprint V path uid db
  = decide_result stored (hypothesis_loop V base stored).
Proof.
  intros (Hread & Hblur & Hpres & Hget). unfold verify_fingerprint.
  now rewrite Hread, Hblur, Hpres, Hget.
Qed.

Lemma lookup_angles_map (base : image) (stored : template) (k : nat)
    (h : option (Q * Q)) :
  map (angle_scores V base stored) angles !! k = Some h
  <-> exists a, angles !! k = Some a /\ angle_scores V base stored a = h.
Proof.
  rewrite list_lookup_fmap_Some. split; intros (a & H1 & H2); exists a; auto.
Qed.

Lemma fold_left_skip {A B} (f : A -> B -> A) (skip : B -> bool) (l : list B) :
  (forall a x, skip x = true -> f a x = a) ->
  forall a, fold_left f l a
            = fold_left f (List.filter (fun x => negb (skip x)) l) a.
Proof.
  intros Hskip. induction l as [|x l IH]; intros a; [reflexivity|].
  cbn [fold_left List.filter]. destruct (skip x) eqn:E; cbn [negb fold_left].
  - now rewrite Hskip.
  - apply IH.
Qed.

Lemma try_angle_skipped (base : image) (stored : template) (b : best) (a : Z) :
  skipped V base a = true -> try_angle V base stored b a = b.
Proof. unfold skipped, try_angle. now intros ->. Qed.

Lemma register_keeps_or_inserts (path uid uname ph : string)
    (db : gmap string row) :
  snd (register_fingerprint V path uid uname ph db) = db
  \/ (db !! uid = None
      /\ fst (register_fingerprint V path uid uname ph db)
         = "Fingerprint registered successfully.").
Proof.
  unfold register_fingerprint, get_fingerprint_by_id, save_fingerprint.
  destruct (imread_grayscale V path) as [img|]; [|now left].
  destruct (is_image_blurry V img); [now left|].
  destruct (negb (is_fingerprint_present V path)); [now left|].
  destruct (no_descriptors _); [now left|].
  destruct (db !! uid) as [r|]; [now left | now right].
Qed.

(** C7: at enrollment an absent or empty descriptor set is a failure:
    the call returns a failure message, ["Fingerprint not detected."]
    once the quality gate is passed, and the database is left as it
    was.  At verification an iteration without descriptors leaves
    the running best untouched, the loop goes on over the other
    angles, and the call still ends in [match_found] or [no_match]. *)
Theorem empty_descriptors :
  (forall path uid uname ph db img,
      imread_grayscale V path = Some img ->
      no_descriptors (orb_descriptors V (enhance_fingerprint V img)) = true ->
      snd (register_fingerprint V path uid uname ph db) = db
      /\ fst (register_fingerprint V path uid uname ph db)
         <> "Fingerprint registered successfully."
      /\ (is_image_blurry V img = false ->
          is_fingerprint_present V path = true ->
          fst (register_fingerprint V path uid uname ph db)
          = "Fingerprint not detected."))
  /\ (forall base stored b a,
        skipped V base a = true -> try_angle V base stored b a = b)
  /\ (forall base stored,
        hypothesis_loop V base stored
        = fold_left (try_angle V base stored)
            (List.filter (fun a => negb (skipped V base a)) angles) best0)
  /\ (forall path uid db base stored,
        reaches_loop V path uid db base stored ->
        status (verify_fingerprint V path uid db) = "match_found"
        \/ status (verify_fingerprint V path uid db) = "no_match").
Proof.
  split; [|split; [|split]].
  - intros path uid uname ph db img Hread Hnone.
    unfold register_fingerprint. rewrite Hread, Hnone.
    destruct (is_image_blurry V img); [repeat split; discriminate|].
    destruct (is_fingerprint_present V path); cbn [negb];
      repeat split; discriminate.
  - intros. now apply try_angle_skipped.
  - intros base stored. unfold hypothesis_loop.
    apply fold_left_skip. intros b a. apply try_angle_skipped.
  - intros path uid db base stored H.
    rewrite (verify_reaches _ _ _ _ _ H). unfold decide_result.
    cbn [status]. destruct (is_match _); auto.
Qed.

(** C8, as amended: when a template is already stored for the user,
    an enrollment attempt never changes the database, whatever the
    image; and when its image is readable, passes the blur and
    presence checks and yields descriptors, the attempt is answered
    ["User ID already registered."]. *)
Theorem duplicate_enrollment (path uid uname ph : string)
    (db : gmap string row) (stored : template) :
  get_fingerprint_by_id uid db = Some stored ->
  snd (register_fingerprint V path uid uname ph db) = db
  /\ get_fingerprint_by_id uid
       (snd (register_fingerprint V path uid uname ph db)) = Some stored
  /\ fst (register_fingerprint V path uid uname ph db)
     <> "Fingerprint registered successfully."
  /\ (forall img,
        imread_grayscale V path = Some img ->
        is_image_blurry V img = false ->
        is_fingerprint_present V path = true ->
        no_descriptors (orb_descriptors V (enhance_fingerprint V img)) = false ->
        fst (register_fingerprint V path uid uname ph db)
        = "User ID already registered.").
Proof.
  intros Hget.
  assert (Hsame : snd (register_fingerprint V path uid uname ph db) = db).
  { destruct (register_keeps_or_inserts path uid uname ph db) as [H|[H _]];
      [exact H|].
    unfold get_fingerprint_by_id in Hget. rewrite H in Hget. discriminate. }
  split; [exact Hsame|]. split; [now rewrite Hsame|]. split.
  - unfold register_fingerprint. rewrite Hget.
    destruct (imread_grayscale V path) as [img|]; [|discriminate].
    destruct (is_image_blurry V img); [discriminate|].
    destruct (negb (is_fingerprint_present V path)); [discriminate|].
    destruct (no_descriptors _); discriminate.
  - intros img Hread Hblur Hpres Hdesc. unfold register_fingerprint.
    now rewrite Hread, Hblur, Hpres, Hdesc, Hget.
Qed.

(** C10: when the call passes the quality gate and finds a template,
    the result carries the [username] of the template that was
    looked up, on a match and on [no_match] alike; the field is
    [None] exactly on the four early returns. *)
Theorem username_reported (path uid : string) (db : gmap string row) :
  (forall base stored,
      reaches_loop V path uid db base stored ->
      res_username (verify_fingerprint V path uid db) = Some (username stored)
      /\ (status (verify_fingerprint V path uid db) = "match_found"
          \/ status (verify_fingerprint V path uid db) = "no_match"))
  /\ (res_username (verify_fingerprint V path uid db) = None
      <-> status (verify_fingerprint V path uid db) = "error"
          \/ status (verify_fingerprint V path uid db) = "blurry"
          \/ status (verify_fingerprint V path uid db) = "no_fingerprint"
          \/ status (verify_fingerprint V path uid db) = "no_user").
Proof.
  split.
  - intros base stored H. rewrite (verify_reaches _ _ _ _ _ H).
    unfold decide_result. cbn [res_username status].
    split; [reflexivity|]. destruct (is_match _); auto.
  - unfold verify_fingerprint.
    destruct (imread_grayscale V path) as [base|]; [|cbn; tauto].
    destruct (is_image_blurry V base); [cbn; tauto|].
    destruct (negb (is_fingerprint_present V path)); [cbn; tauto|].
    destruct (get_fingerprint_by_id uid db) as [stored|]; [|cbn; tauto].
    unfold decide_result. cbn [res_username status].
    split; [discriminate|].
    destruct (is_match _); intros [H|[H|[H|H]]]; discriminate.
Qed.

Lemma accuracy_minutiae_self (pts : list point) :
  pts <> [] -> (accuracy_minutiae pts pts == 100)%Q.
Proof.
  intros Hne. unfold accuracy_minutiae.
  destruct pts as [|p pts]; [congruence|].
  cbn [length Nat.ltb Nat.leb andb].
  rewrite matched_minutiae_count, count_within_self.
  apply percentage_full. cbn [length]. lia.
Qed.

(** C2, as amended: an image that is readable, passes the blur and
    presence checks, and whose enhanced form yields at least one
    descriptor and at least one minutia, is enrolled successfully
    under an unused user id, and verifying the same file for that id
    then gives [match_found] with [match] true (rotation by 0 degrees
    returning the image unchanged). *)
Theorem enroll_then_verify (path uid uname ph : string)
    (db : gmap string row) (img : image) :
  imread_grayscale V path = Some img ->
  is_image_blurry V img = false ->
  is_fingerprint_present V path = true ->
  db !! uid = None ->
  no_descriptors (orb_descriptors V (enhance_fingerprint V img)) = false ->
  extract_minutiae V (enhance_fingerprint V img) <> [] ->
  rotate_image V img 0 = img ->
  fst (register_fingerprint V path uid uname ph db)
  = "Fingerprint registered successfully."
  /\ status (verify_fingerprint V path uid
               (snd (register_fingerprint V path uid uname ph db)))
     = "match_found"
  /\ match_ (verify_fingerprint V path uid
               (snd (register_fingerprint V path uid uname ph db)))
     = true.
Proof.
  intros Hread Hblur Hpres Hfree Hdesc Hmin Hrot.
  set (enh := enhance_fingerprint V img) in *.
  set (data := Template (default [] (orb_descriptors V enh))
                        (extract_minutiae V enh) uname ph).
  assert (Hreg : register_fingerprint V path uid uname ph db
                 = ("Fingerprint registered successfully.",
                    <[uid := Row uname ph data]> db)).
  { unfold register_fingerprint, get_fingerprint_by_id, save_fingerprint.
    rewrite Hread, Hblur, Hpres. cbn [negb]. fold enh.
    now rewrite Hdesc, Hfree. }
  rewrite Hreg. cbn [fst snd]. split; [reflexivity|].
  assert (Hloop : reaches_loop V path uid (<[uid := Row uname ph data]> db) img data).
  { repeat split; try assumption.
    unfold get_fingerprint_by_id. now rewrite lookup_insert_eq. }
  rewrite (verify_reaches _ _ _ _ _ Hloop).
  assert (Hmatch : is_match (hypothesis_loop V img data) = true).
  { apply is_match_spec. left. rewrite hypothesis_loop_rescore.
    set (o := accuracy_orb
                (bf_match V (default [] (orb_descriptors V enh)) (orb data))
                (length (default [] (orb_descriptors V enh)))
                (length (orb data))).
    set (m := accuracy_minutiae (extract_minutiae V enh) (minutiae data)).
    assert (Hs : angle_scores V img data 0 = Some (o, m)).
    { unfold angle_scores. rewrite Hrot. fold enh. now rewrite Hdesc. }
    assert (Hk : map (angle_scores V img data) angles !! 2%nat
                 = Some (Some (o, m))).
    { rewrite <- Hs. reflexivity. }
    apply Qle_trans with (final_score o m);
      [|exact (loop_upper_bound _ _ _ _ Hk)].
    assert (Ho : (0 <= o)%Q) by apply percentage_nonneg.
    assert (Hm : (m == 100)%Q) by (apply accuracy_minutiae_self; exact Hmin).
    unfold final_score. lra. }
  unfold decide_result. cbn [status match_]. now rewrite Hmatch.
Qed.

End WithVision.

Import Samples.

Lemma toy_reaches_loop :
  reaches_loop toy_vision "two_ridges.png" "u1" db1 two_ridges template1.
Proof. repeat split; reflexivity. Defined.

Lemma empty_descriptors_witness :
  snd (register_fingerprint toy_vision "faint.png" "u1" "Ann" "555" ∅) = ∅
  /\ fst (register_fingerprint toy_vision "faint.png" "u1" "Ann" "555" ∅)
     = "Fingerprint not detected.".
Proof.
  destruct (proj1 (empty_descriptors toy_vision)
              "faint.png" "u1" "Ann" "555" ∅ faint eq_refl eq_refl)
    as (Hdb & _ & Hmsg).
  split; [exact Hdb | exact (Hmsg eq_refl eq_refl)].
Defined.

(** C8 as stated fails: the user is enrolled, the second attempt brings
    an unreadable file and is answered as such, not as a duplicate. *)
Lemma duplicate_enrollment_counterexample :
  get_fingerprint_by_id "u1" db1 = Some template1
  /\ register_fingerprint toy_vision "missing.png" "u1" "Ann" "555" db1
     = ("Image could not be read.", db1).
Proof. split; reflexivity. Qed.

Lemma duplicate_enrollment_witness :
  snd (register_fingerprint toy_vision "lone_pair.png" "u1" "Eve" "000" db1) = db1
  /\ fst (register_fingerprint toy_vision "lone_pair.png" "u1" "Eve" "000" db1)
     = "User ID already registered.".
Proof.
  destruct (duplicate_enrollment toy_vision "lone_pair.png" "u1" "Eve" "000"
              db1 template1 eq_refl) as (Hdb & _ & _ & Hmsg).
  split; [exact Hdb|].
  exact (Hmsg lone_pair eq_refl eq_refl eq_refl eq_refl).
Defined.

Lemma username_reported_witness :
  res_username (verify_fingerprint toy_vision "lone_pair.png" "u2" db2) = Some "Bob"
  /\ status (verify_fingerprint toy_vision "lone_pair.png" "u2" db2) = "no_match".
Proof.
  split; [|reflexivity].
  apply (proj1 (username_reported toy_vision "lone_pair.png" "u2" db2)
           lone_pair template2).
  repeat split; reflexivity.
Defined.

(** The reported name is the one serialized at enrollment: an update of
    the [username] column does not reach it. *)
Example username_after_update :
  row_username <$> update_fingerprint "u1" "Zoe" "999" db1 !! "u1" = Some "Zoe"
  /\ res_username (verify_fingerprint toy_vision "two_ridges.png" "u1"
                     (update_fingerprint "u1" "Zoe" "999" db1))
     = Some "Ann".
Proof. split; reflexivity. Qed.

(** C2 as stated fails twice.  ["faint.png"] is readable, sharp and
    shows a large contour, yet no descriptor is found on it and the
    enrollment under a fresh user id is refused.  ["lone_pair.png"] is
    enrolled, but every minutia candidate on it is dropped by the noise
    filter, so the stored minutiae set is empty, the minutiae score is 0
    at every angle, and verifying the same file ends in [no_match]. *)
Lemma enroll_then_verify_counterexample :
  (imread_grayscale toy_vision "faint.png" = Some faint
   /\ is_image_blurry toy_vision faint = false
   /\ is_fingerprint_present toy_vision "faint.png" = true
   /\ register_fingerprint toy_vision "faint.png" "u1" "Ann" "555" ∅
      = ("Fingerprint not detected.", ∅))
  /\ (imread_grayscale toy_vision "lone_pair.png" = Some lone_pair
      /\ is_image_blurry toy_vision lone_pair = false
      /\ is_fingerprint_present toy_vision "lone_pair.png" = true
      /\ fst (register_fingerprint toy_vision "lone_pair.png" "u2" "Bob" "556" ∅)
         = "Fingerprint registered successfully."
      /\ extract_minutiae toy_vision lone_pair = []
      /\ status (verify_fingerprint toy_vision "lone_pair.png" "u2" db2) = "no_match"
      /\ match_ (verify_fingerprint toy_vision "lone_pair.png" "u2" db2) = false).
Proof. repeat split; reflexivity. Qed.

Lemma enroll_then_verify_witness :
  fst (register_fingerprint toy_vision "two_ridges.png" "u1" "Ann" "555" ∅)
  = "Fingerprint registered successfully."
  /\ status (verify_fingerprint toy_vision "two_ridges.png" "u1"
               (snd (register_fingerprint toy_vision "two_ridges.png" "u1" "Ann" "555" ∅)))
     = "match_found"
  /\ match_ (verify_fingerprint toy_vision "two_ridges.png" "u1"
               (snd (register_fingerprint toy_vision "two_ridges.png" "u1" "Ann" "555" ∅)))
     = true.
Proof.
  apply (enroll_then_verify toy_vision "two_ridges.png" "u1" "Ann" "555" ∅ two_ridges);
    try reflexivity.
  discriminate.
Defined.

End PipelineFacts.

(** * Further properties of the code *)

(** ** Storage *)

Module StorageFacts.
Import Minutiae Scoring Database.

Lemma get_insert_ne (uid uid' : string) (r : row) (db : gmap string row) :
  uid' <> uid ->
  get_fingerprint_by_id uid' (<[uid := r]> db) = get_fingerprint_by_id uid' db.
Proof. intros H. unfold get_fingerprint_by_id. now rewrite lookup_insert_ne. Qed.

Lemma get_update (uid uid' uname ph : string) (db : gmap string row) :
  get_fingerprint_by_id uid' (update_fingerprint uid uname ph db)
  = get_fingerprint_by_id uid' db.
Proof.
  unfold get_fingerprint_by_id, update_fingerprint.
  destruct (decide (uid = uid')) as [->|Hne].
  - rewrite lookup_alter_eq. now destruct (db !! uid').
  - now rewrite lookup_alter_ne.
Qed.

Lemma save_fresh (uid : string) (data : template) (db : gmap string row) :
  db !! uid = None ->
  save_fingerprint uid data db
  = ("Fingerprint registered successfully.",
     <[uid := Row (username data) (phone data) data]> db).
Proof. intros H. unfold save_fingerprint. now rewrite H. Qed.

End StorageFacts.

(** ** Enrollment, verification and the database *)

Module EnrollmentFacts.
Import Grid Minutiae Scoring Database Pipeline.
Import StorageFacts.

Section WithVision.
Context (V : vision).

(** The outcome of [register_fingerprint], case by case. *)
Lemma register_cases (path uid uname ph : string) (db : gmap string row) :
  (snd (register_fingerprint V path uid uname ph db) = db
   /\ fst (register_fingerprint V path uid uname ph db)
      <> "Fingerprint registered successfully."
   /\ (imread_grayscale V path = None
       \/ (exists img, imread_grayscale V path = Some img
                       /\ (is_image_blurry V img = true
                           \/ is_fingerprint_present V path = false
                           \/ no_descriptors
                                (orb_descriptors V (enhance_fingerprint V img)) = true))
       \/ is_Some (db !! uid)))
  \/ (exists img,
        imread_grayscale V path = Some img
        /\ is_image_blurry V img = false
        /\ is_fingerprint_present V path = true
        /\ no_descriptors (orb_descriptors V (enhance_fingerprint V img)) = false
        /\ db !! uid = None
        /\ register_fingerprint V path uid uname ph db
           = ("Fingerprint registered successfully.",
              <[uid := Row uname ph
                         (Template
                            (default [] (orb_descriptors V (enhance_fingerprint V img)))
                            (extract_minutiae V (enhance_fingerprint V img))
                            uname ph)]> db)).
Proof.
  unfold register_fingerprint, get_fingerprint_by_id, save_fingerprint.
  destruct (imread_grayscale V path) as [img|];
    [|left; repeat split; [discriminate | now left]].
  destruct (is_image_blurry V img) eqn:Eb;
    [left; repeat split; [discriminate | right; left; eauto]|].
  destruct (is_fingerprint_present V path) eqn:Ep; cbn [negb];
    [|left; repeat split; [discriminate | right; left; eauto 6]].
  destruct (no_descriptors _) eqn:Ed;
    [left; repeat split; [discriminate | right; left; eauto 6]|].
  destruct (db !! uid) as [r|] eqn:El; cbn [fmap option_fmap option_map].
  - left. repeat split; [discriminate | right; right; eauto].
  - right. exists img. repeat split; (assumption || reflexivity).
Qed.

Lemma descriptors_nonempty (d : option (list descriptor)) :
  no_descriptors d = false -> default [] d <> [].
Proof.
  destruct d as [[|x l]|]; cbn; intros H; (discriminate || congruence).
Qed.

Lemma register_other (path uid uname ph uid' : string) (db : gmap string row) :
  uid' <> uid ->
  snd (register_fingerprint V path uid uname ph db) !! uid' = db !! uid'.
Proof.
  intros Hne.
  destruct (register_cases path uid uname ph db)
    as [(-> & _)|(img & _ & _ & _ & _ & _ & ->)]; [reflexivity|].
  cbn [snd]. now rewrite lookup_insert_ne.
Qed.

Lemma verify_lookup (path uid : string) (db db' : gmap string row) :
  get_fingerprint_by_id uid db = get_fingerprint_by_id uid db' ->
  verify_fingerprint V path uid db = verify_fingerprint V path uid db'.
Proof. intros H. unfold verify_fingerprint. now rewrite H. Qed.

(** X4: [register_fingerprint] reports success exactly when the image is
    readable, sharp, shows a fingerprint and yields descriptors and the
    user id is free.  Then the template read back carries the given name
    and phone and a non-empty descriptor set; in every other case the
    database is unchanged; and the rows of other users are never
    touched. *)
Theorem register_fingerprint_spec (path uid uname ph : string)
    (db : gmap string row) :
  (fst (register_fingerprint V path uid uname ph db)
   = "Fingerprint registered successfully."
   <-> exists img,
         imread_grayscale V path = Some img
         /\ is_image_blurry V img = false
         /\ is_fingerprint_present V path = true
         /\ no_descriptors (orb_descriptors V (enhance_fingerprint V img)) = false
         /\ db !! uid = None)
  /\ (fst (register_fingerprint V path uid uname ph db)
      = "Fingerprint registered successfully." ->
      exists t,
        get_fingerprint_by_id uid (snd (register_fingerprint V path uid uname ph db))
        = Some t
        /\ snd (register_fingerprint V path uid uname ph db) !! uid
           = Some (Row uname ph t)
        /\ username t = uname /\ phone t = ph /\ orb t <> [])
  /\ (fst (register_fingerprint V path uid uname ph db)
      <> "Fingerprint registered successfully." ->
      snd (register_fingerprint V path uid uname ph db) = db)
  /\ (forall uid', uid' <> uid ->
        snd (register_fingerprint V path uid uname ph db) !! uid' = db !! uid').
Proof.
  split; [|split; [|split]].
  - destruct (register_cases path uid uname ph db)
      as [(_ & Hmsg & Hwhy)|(img & H1 & H2 & H3 & H4 & H5 & Hreg)].
    + split; [intros H; contradiction|].
      intros (img & H1 & H2 & H3 & H4 & H5). exfalso.
      destruct Hwhy as [Hr|[(img' & Hr & Hw)|[r Hr]]]; try congruence.
      assert (img' = img) as -> by congruence.
      destruct Hw as [Hw|[Hw|Hw]]; congruence.
    + rewrite Hreg. cbn [fst]. split; [intros _; eauto 8 | reflexivity].
  - intros Hok.
    destruct (register_cases path uid uname ph db)
      as [(_ & Hmsg & _)|(img & H1 & H2 & H3 & H4 & H5 & Hreg)]; [contradiction|].
    rewrite Hreg. cbn [snd]. unfold get_fingerprint_by_id.
    rewrite lookup_insert_eq. eexists. split; [reflexivity|].
    split; [reflexivity|]. cbn [username phone orb].
    split; [reflexivity|]. split; [reflexivity|].
    now apply descriptors_nonempty.
  - intros Hfail.
    destruct (register_cases path uid uname ph db)
      as [(Hdb & _)|(img & _ & _ & _ & _ & _ & Hreg)]; [exact Hdb|].
    rewrite Hreg in Hfail. now cbn in Hfail.
  - intros uid'. apply register_other.
Qed.

(** X5: a database in which every template holds at least one descriptor
    stays so under enrollment, update and deletion; the empty database is
    one.  A stored template thus never has an empty descriptor set. *)
Theorem descriptors_invariant (db : gmap string row) :
  templates_have_descriptors db ->
  (forall path uid uname ph,
      templates_have_descriptors (snd (register_fingerprint V path uid uname ph db)))
  /\ (forall uid uname ph,
        templates_have_descriptors (snd (update_fingerprint_result uid uname ph db)))
  /\ (forall uid, templates_have_descriptors (snd (delete_fingerprint uid db))).
Proof.
  intros Hinv. split; [|split].
  - intros path uid uname ph uid' r Hr.
    destruct (register_cases path uid uname ph db)
      as [(Hdb & _)|(img & _ & _ & _ & Hd & _ & Hreg)].
    + rewrite Hdb in Hr. eauto.
    + rewrite Hreg in Hr. cbn [snd] in Hr.
      destruct (decide (uid = uid')) as [->|Hne].
      * rewrite lookup_insert_eq in Hr. injection Hr as <-.
        cbn [row_descriptors orb]. now apply descriptors_nonempty.
      * rewrite lookup_insert_ne in Hr by exact Hne. eauto.
  - intros uid uname ph uid' r Hr.
    unfold update_fingerprint_result, update_fingerprint in Hr. cbn [snd] in Hr.
    destruct (decide (uid = uid')) as [->|Hne].
    + rewrite lookup_alter_eq in Hr.
      destruct (db !! uid') as [r0|] eqn:E; [|discriminate].
      injection Hr as <-. cbn [row_descriptors]. eauto.
    + rewrite lookup_alter_ne in Hr by exact Hne. eauto.
  - intros uid uid' r Hr. unfold delete_fingerprint in Hr. cbn [snd] in Hr.
    apply lookup_delete_Some in Hr. destruct Hr as [_ Hr]. eauto.
Qed.

(** X6: the result of a verification depends on the database only
    through the template of the user verified: it is the same after an
    update of any user's name and phone, and after the enrollment,
    storage or deletion of another user. *)
Theorem verify_frame (path uid : string) (db : gmap string row) :
  (forall uid0 uname ph,
      verify_fingerprint V path uid (update_fingerprint uid0 uname ph db)
      = verify_fingerprint V path uid db)
  /\ (forall path0 uid0 uname ph, uid0 <> uid ->
        verify_fingerprint V path uid
          (snd (register_fingerprint V path0 uid0 uname ph db))
        = verify_fingerprint V path uid db)
  /\ (forall uid0 data, uid0 <> uid ->
        verify_fingerprint V path uid (snd (save_fingerprint uid0 data db))
        = verify_fingerprint V path uid db)
  /\ (forall uid0, uid0 <> uid ->
        verify_fingerprint V path uid (snd (delete_fingerprint uid0 db))
        = verify_fingerprint V path uid db).
Proof.
  split; [|split; [|split]].
  - intros. apply verify_lookup, get_update.
  - intros path0 uid0 uname ph Hne. apply verify_lookup.
    unfold get_fingerprint_by_id. rewrite register_other; congruence.
  - intros uid0 data Hne. apply verify_lookup. unfold get_fingerprint_by_id.
    unfold save_fingerprint. destruct (db !! uid0); cbn [snd]; [reflexivity|].
    now rewrite lookup_insert_ne.
  - intros uid0 Hne. apply verify_lookup. unfold get_fingerprint_by_id.
    unfold delete_fingerprint. cbn [snd]. now rewrite lookup_delete_ne.
Qed.

(** X7: once a user is deleted, verifying for that user never matches:
    no name is reported, and an image that passes the quality gate is
    answered [no_user]. *)
Theorem verify_after_delete (path uid : string) (db : gmap string row) :
  match_ (verify_fingerprint V path uid (snd (delete_fingerprint uid db))) = false
  /\ res_username (verify_fingerprint V path uid (snd (delete_fingerprint uid db)))
     = None
  /\ (forall img,
        imread_grayscale V path = Some img ->
        is_image_blurry V img = false ->
        is_fingerprint_present V path = true ->
        status (verify_fingerprint V path uid (snd (delete_fingerprint uid db)))
        = "no_user").
Proof.
  unfold verify_fingerprint, get_fingerprint_by_id, delete_fingerprint.
  cbn [snd]. rewrite lookup_delete_eq. cbn [fmap option_fmap option_map].
  destruct (imread_grayscale V path) as [img|] eqn:Er.
  - destruct (is_image_blurry V img) eqn:Eb;
      [repeat split; intros; cbn; congruence|].
    destruct (is_fingerprint_present V path) eqn:Ep; cbn [negb];
      repeat split; intros; cbn; congruence.
  - repeat split. intros; congruence.
Qed.

End WithVision.

Lemma register_fingerprint_witness :
  exists t,
    get_fingerprint_by_id "u1"
      (snd (register_fingerprint Samples.toy_vision "two_ridges.png" "u1" "Ann" "555" ∅))
    = Some t
    /\ snd (register_fingerprint Samples.toy_vision "two_ridges.png" "u1" "Ann" "555" ∅)
         !! "u1" = Some (Row "Ann" "555" t)
    /\ username t = "Ann" /\ phone t = "555" /\ orb t <> [].
Proof.
  exact (proj1 (proj2 (register_fingerprint_spec
                         Samples.toy_vision "two_ridges.png" "u1" "Ann" "555" ∅))
           eq_refl).
Defined.

Lemma descriptors_invariant_witness :
  templates_have_descriptors
    (snd (register_fingerprint Samples.toy_vision "two_ridges.png" "u1" "Ann" "555" ∅)).
Proof.
  apply (descriptors_invariant Samples.toy_vision ∅).
  intros uid r H. rewrite lookup_empty in H. discriminate H.
Defined.

End EnrollmentFacts.

(** ** Order and multiplicity of the minutiae *)

Module MinutiaeOrder.
Import Grid Minutiae GridFacts MinutiaeFacts.

Lemma is_minutia_off (ty : minutiae_type) (sk : image) (p : point) :
  on sk (fst p) (snd p) = false -> is_minutia ty sk p = false.
Proof. intros H. unfold is_minutia. now rewrite H. Qed.

(** One visit, as a filter on the visited pixel. *)
Lemma visit_filter (sk : image) (a : acc) (i j : Z) :
  1 <= i -> 1 <= j ->
  visit true sk a i j
  = (fst a ++ List.filter (is_minutia ending sk) [(i, j)],
     snd a ++ List.filter (is_minutia bifurcation sk) [(i, j)]).
Proof.
  intros Hi Hj. unfold visit. cbn [List.filter].
  destruct (getpix sk i j =? 255) eqn:Epix.
  - apply Z.eqb_eq in Epix.
    rewrite neighbour_count_spec, local_density_spec by (lia || assumption).
    unfold is_minutia. cbn [fst snd].
    rewrite on_getpix by lia. rewrite Epix. cbn [Z.eqb Pos.eqb andb].
    destruct (classify (crossings sk i j)) as [[|]|]; cbn [minutiae_type_eqb andb].
    + rewrite Z.leb_antisym. destruct (density11 sk i j <? 10); cbn [negb];
        rewrite ?app_nil_r; now destruct a.
    + rewrite Z.leb_antisym. destruct (density11 sk i j <? 10); cbn [negb];
        rewrite ?app_nil_r; now destruct a.
    + rewrite !app_nil_r. now destruct a.
  - rewrite !is_minutia_off, !app_nil_r; [now destruct a | |];
      cbn [fst snd]; rewrite on_getpix by lia; exact Epix.
Qed.

Lemma fold_visit_filter (sk : image) (i : Z) (js : list Z) :
  1 <= i -> Forall (fun j => 1 <= j) js ->
  forall a,
    fold_left (fun a j => visit true sk a i j) js a
    = (fst a ++ List.filter (is_minutia ending sk) (map (pair i) js),
       snd a ++ List.filter (is_minutia bifurcation sk) (map (pair i) js)).
Proof.
  intros Hi Hjs. induction Hjs as [|j js Hj _ IH]; intros a.
  - cbn. rewrite !app_nil_r. now destruct a.
  - cbn [fold_left]. rewrite IH, visit_filter by assumption.
    cbn [fst snd map]. rewrite <- !app_assoc.
    now rewrite <- !List.filter_app.
Qed.

Lemma fold_scan_row_filter (sk : image) (rs : list Z) :
  Forall (fun i => 1 <= i) rs ->
  forall a,
    fold_left (scan_row true sk) rs a
    = (fst a ++ List.filter (is_minutia ending sk)
                  (list_prod rs (range 1 (cols sk - 1))),
       snd a ++ List.filter (is_minutia bifurcation sk)
                  (list_prod rs (range 1 (cols sk - 1)))).
Proof.
  intros Hrs. induction Hrs as [|i rs Hi _ IH]; intros a.
  - cbn. rewrite !app_nil_r. now destruct a.
  - cbn [fold_left list_prod]. rewrite IH. unfold scan_row.
    rewrite fold_visit_filter.
    + cbn [fst snd]. rewrite <- !app_assoc. now rewrite <- !List.filter_app.
    + exact Hi.
    + apply List.Forall_forall. intros j Hj. apply in_range in Hj. lia.
Qed.

Lemma range_lower (lo hi : Z) : Forall (fun k => lo <= k) (range lo hi).
Proof. apply List.Forall_forall. intros k Hk. apply in_range in Hk. lia. Qed.

Lemma scan_filter (sk : image) :
  scan true sk
  = (List.filter (is_minutia ending sk) (raster sk),
     List.filter (is_minutia bifurcation sk) (raster sk)).
Proof.
  unfold scan. rewrite fold_scan_row_filter by apply range_lower. reflexivity.
Qed.

Lemma range_NoDup (lo hi : Z) : List.NoDup (range lo hi).
Proof.
  unfold range. apply List.NoDup_map_inv with (f := fun k => Z.to_nat (k - lo)).
  rewrite map_map.
  rewrite (map_ext _ (fun k : nat => k)) by (intros; lia).
  rewrite map_id. apply List.seq_NoDup.
Qed.

Lemma list_prod_NoDup {A B} (l : list A) (k : list B) :
  List.NoDup l -> List.NoDup k -> List.NoDup (list_prod l k).
Proof.
  intros Hl Hk. induction Hl as [|x l Hx Hl IH]; [constructor|].
  cbn [list_prod]. apply List.NoDup_app.
  - apply List.NoDup_map_inv with (f := snd).
    rewrite map_map. cbn [snd]. now rewrite map_id.
  - exact IH.
  - intros [x' y'] H1 H2.
    apply in_map_iff in H1. destruct H1 as (y & Heq & _). injection Heq as <- <-.
    apply in_prod_iff in H2. tauto.
Qed.

Lemma list_prod_nil_r {A B} (l : list A) : list_prod l (@nil B) = [].
Proof. induction l as [|x l IH]; [reflexivity | exact IH]. Qed.

(** X8: the returned sequence is the ridge endings in raster order
    followed by the bifurcations in raster order: the interior pixels,
    row by row, filtered once for each type. *)
Theorem minutiae_order (sk : image) :
  minutiae_of_skeleton sk
  = List.filter (is_minutia ending sk) (raster sk)
    ++ List.filter (is_minutia bifurcation sk) (raster sk).
Proof.
  unfold minutiae_of_skeleton, USE_MINUTIAE_FILTERING.
  now rewrite scan_filter.
Qed.

(** X9: no point is returned twice, neither within a type nor as both an
    ending and a bifurcation. *)
Theorem minutiae_NoDup (sk : image) : List.NoDup (minutiae_of_skeleton sk).
Proof.
  unfold minutiae_of_skeleton, USE_MINUTIAE_FILTERING. rewrite scan_filter.
  assert (Hr : List.NoDup (raster sk))
    by (apply list_prod_NoDup; apply range_NoDup).
  apply List.NoDup_app.
  - now apply List.NoDup_filter.
  - now apply List.NoDup_filter.
  - intros p H1 H2.
    apply filter_In in H1, H2. destruct H1 as [_ H1], H2 as [_ H2].
    unfold is_minutia in H1, H2.
    apply andb_true_iff in H1, H2. destruct H1 as [H1 _], H2 as [H2 _].
    apply andb_true_iff in H1, H2. destruct H1 as [_ H1], H2 as [_ H2].
    destruct (classify (crossings sk (fst p) (snd p))) as [[|]|]; discriminate.
Qed.

(** X10: an image with fewer than 3 rows or fewer than 3 columns has no
    interior pixel and yields no minutiae. *)
Theorem minutiae_small_image (sk : image) :
  rows sk < 3 \/ cols sk < 3 -> minutiae_of_skeleton sk = [].
Proof.
  intros H. unfold minutiae_of_skeleton, USE_MINUTIAE_FILTERING.
  rewrite scan_filter. unfold raster.
  assert (Hempty : list_prod (range 1 (rows sk - 1)) (range 1 (cols sk - 1)) = []).
  { destruct H as [H|H].
    - unfold range at 1. replace (Z.to_nat (rows sk - 1 - 1)) with 0%nat by lia.
      reflexivity.
    - unfold range at 2. replace (Z.to_nat (cols sk - 1 - 1)) with 0%nat by lia.
      apply list_prod_nil_r. }
  now rewrite Hempty.
Qed.

Lemma minutiae_small_image_witness :
  minutiae_of_skeleton [[255; 255; 255; 255]; [255; 255; 255; 255]] = [].
Proof.
  apply (minutiae_small_image [[255; 255; 255; 255]; [255; 255; 255; 255]]).
  left. reflexivity.
Defined.

End MinutiaeOrder.

(** ** Ranges of the scores and what a match needs *)

Module ScoreBounds.
Import Grid Minutiae Scoring Database Pipeline.
Import ScoringFacts LoopFacts PipelineFacts.
Local Open Scope Q_scope.

Lemma percentage_le_100 (n a b : nat) :
  (n <= Nat.max a b)%nat -> percentage n a b <= 100.
Proof.
  intros H. unfold percentage.
  destruct (Nat.max a b) as [|k] eqn:E.
  - replace n with 0%nat by lia. cbn. discriminate.
  - assert (Hpos : 0 < inject_Z (Z.of_nat (S k))).
    { change 0 with (inject_Z 0). rewrite <- Zlt_Qlt. lia. }
    assert (Hle : inject_Z (Z.of_nat n) / inject_Z (Z.of_nat (S k)) <= 1).
    { apply Qle_shift_div_r; [exact Hpos|]. rewrite Qmult_1_l.
      rewrite <- Zle_Qle. lia. }
    lra.
Qed.

Lemma count_within_le (stored probe : list point) :
  (count_within stored probe <= length probe)%nat.
Proof. unfold count_within. apply List.filter_length_le. Qed.

Lemma accuracy_minutiae_le_100 (probe stored : list point) :
  accuracy_minutiae probe stored <= 100.
Proof.
  unfold accuracy_minutiae. destruct (_ && _); [|discriminate].
  apply percentage_le_100. rewrite matched_minutiae_count.
  pose proof (count_within_le stored probe). lia.
Qed.

(** X11: the minutiae score is a percentage: it lies between 0 and 100
    for every pair of point sets, and it is exactly 100 when a non-empty
    set is compared with itself. *)
Theorem accuracy_minutiae_range (probe stored : list point) :
  0 <= accuracy_minutiae probe stored <= 100
  /\ (probe <> [] -> accuracy_minutiae probe probe == 100).
Proof.
  split; [split|].
  - apply accuracy_minutiae_nonneg.
  - apply accuracy_minutiae_le_100.
  - intros Hne. unfold accuracy_minutiae.
    destruct probe as [|p probe]; [congruence|].
    cbn [length Nat.ltb Nat.leb andb].
    rewrite matched_minutiae_count, count_within_self.
    apply percentage_full. cbn [length]. lia.
Qed.

Section WithVision.
Context (V : vision).

(** The running best after the loop: the initial zeros, or the scores
    of one of the angles. *)
Lemma loop_result_cases (base : image) (stored : template) :
  hypothesis_loop V base stored = best0
  \/ exists a o m,
       In a angles
       /\ angle_scores V base stored a = Some (o, m)
       /\ hypothesis_loop V base stored = Best (final_score o m) o m.
Proof.
  rewrite hypothesis_loop_rescore.
  destruct (loop_invariant (map (angle_scores V base stored) angles))
    as [(k & o & m & Hk & Hb & _)|[Hb _]]; [right | left; exact Hb].
  apply lookup_angles_map in Hk. destruct Hk as (a & Ha & Hs).
  exists a, o, m. repeat split; try assumption.
  apply list_elem_of_In. eapply list_elem_of_lookup_2. exact Ha.
Qed.

Lemma angle_scores_range (base : image) (stored : template) (a : Z) (o m : Q) :
  matcher_bounded V ->
  angle_scores V base stored a = Some (o, m) ->
  0 <= o <= 100 /\ 0 <= m <= 100.
Proof.
  intros Hb Hs. destruct (angle_scores_nonneg V _ _ _ _ _ Hs) as [Ho Hm].
  unfold angle_scores in Hs. destruct (no_descriptors _); [discriminate|].
  injection Hs as <- <-. repeat split; try assumption.
  - apply percentage_le_100. etransitivity; [apply Hb|]. lia.
  - apply accuracy_minutiae_le_100.
Qed.

(** Either an early return with all scores 0 and no match, or the
    decision on the loop's result. *)
Lemma verify_cases (path uid : string) (db : gmap string row) :
  (exists st msg, verify_fingerprint V path uid db = failure st msg)
  \/ (exists base stored,
        reaches_loop V path uid db base stored
        /\ verify_fingerprint V path uid db
           = decide_result stored (hypothesis_loop V base stored)).
Proof.
  unfold verify_fingerprint, reaches_loop.
  destruct (imread_grayscale V path) as [base|]; [|left; eauto].
  destruct (is_image_blurry V base) eqn:Eb; [left; eauto|].
  destruct (is_fingerprint_present V path) eqn:Ep; cbn [negb]; [|left; eauto].
  destruct (get_fingerprint_by_id uid db) as [stored|]; [|left; eauto].
  right. exists base, stored. auto.
Qed.

Lemma loop_scores_range (base : image) (stored : template) :
  matcher_bounded V ->
  0 <= best_final_score (hypothesis_loop V base stored) <= 100
  /\ 0 <= best_orb_score (hypothesis_loop V base stored) <= 100
  /\ 0 <= best_minutiae_score (hypothesis_loop V base stored) <= 100.
Proof.
  intros Hb.
  destruct (loop_result_cases base stored) as [->|(a & o & m & _ & Hs & ->)].
  - cbn. repeat split; discriminate.
  - destruct (angle_scores_range _ _ _ _ _ Hb Hs) as [Ho Hm].
    cbn [best_final_score best_orb_score best_minutiae_score].
    unfold final_score. repeat split; lra.
Qed.

(** X12: when the matcher returns at most one match per probe
    descriptor, the three scores of every verification result are
    percentages between 0 and 100. *)
Theorem verify_scores_range (path uid : string) (db : gmap string row) :
  matcher_bounded V ->
  0 <= accuracy (verify_fingerprint V path uid db) <= 100
  /\ 0 <= orb_score (verify_fingerprint V path uid db) <= 100
  /\ 0 <= minutiae_score (verify_fingerprint V path uid db) <= 100.
Proof.
  intros Hb.
  destruct (verify_cases path uid db) as [(st & msg & ->)|(base & stored & _ & ->)].
  - cbn. repeat split; discriminate.
  - unfold decide_result. cbn [accuracy orb_score minutiae_score].
    now apply loop_scores_range.
Qed.

Lemma match_needs_minutiae (b : best) :
  best_final_score b == final_score (best_orb_score b) (best_minutiae_score b) ->
  best_orb_score b <= 100 ->
  is_match b = true ->
  15 < best_minutiae_score b.
Proof.
  intros Hf Ho Hm. apply is_match_spec in Hm.
  unfold final_score in Hf. destruct Hm as [H|[_ H]]; lra.
Qed.

(** X13: descriptor agreement alone never gives a match.  With a matcher
    that returns at most one match per probe descriptor, a result with
    [match] true has a minutiae score above 15. *)
Theorem match_requires_minutiae (path uid : string) (db : gmap string row) :
  matcher_bounded V ->
  match_ (verify_fingerprint V path uid db) = true ->
  15 < minutiae_score (verify_fingerprint V path uid db).
Proof.
  intros Hb.
  destruct (verify_cases path uid db) as [(st & msg & ->)|(base & stored & _ & ->)].
  - cbn. discriminate.
  - unfold decide_result. cbn [match_ minutiae_score].
    apply match_needs_minutiae.
    + rewrite hypothesis_loop_rescore. apply loop_fused.
    + now apply loop_scores_range.
Qed.

(** X14: a template stored without minutiae can never be matched: for
    every probe image the minutiae score is 0, the fused score is at
    most 10 and [match] is false. *)
Theorem empty_template_never_matches (path uid : string)
    (db : gmap string row) (stored : template) :
  matcher_bounded V ->
  get_fingerprint_by_id uid db = Some stored ->
  minutiae stored = [] ->
  match_ (verify_fingerprint V path uid db) = false
  /\ minutiae_score (verify_fingerprint V path uid db) == 0
  /\ accuracy (verify_fingerprint V path uid db) <= 10.
Proof.
  intros Hb Hget Hmin.
  destruct (verify_cases path uid db)
    as [(st & msg & ->)|(base & stored' & (_ & _ & _ & Hget') & ->)].
  - cbn. repeat split; discriminate.
  - assert (stored' = stored) as -> by congruence.
    unfold decide_result. cbn [match_ minutiae_score accuracy].
    assert (Hzero : best_minutiae_score (hypothesis_loop V base stored) == 0).
    { destruct (loop_result_cases base stored) as [->|(a & o & m & _ & Hs & ->)];
        [reflexivity|].
      cbn [best_minutiae_score]. unfold angle_scores in Hs.
      destruct (no_descriptors _); [discriminate|]. injection Hs as _ <-.
      rewrite Hmin. unfold accuracy_minutiae. now rewrite andb_false_r. }
    pose proof (loop_scores_range base stored Hb) as (_ & [_ Ho] & _).
    assert (Hf : best_final_score (hypothesis_loop V base stored)
                 == final_score (best_orb_score (hypothesis_loop V base stored))
                      (best_minutiae_score (hypothesis_loop V base stored))).
    { rewrite hypothesis_loop_rescore. apply loop_fused. }
    split; [|split; [exact Hzero|]].
    + destruct (is_match (hypothesis_loop V base stored)) eqn:E; [|reflexivity].
      pose proof (match_needs_minutiae _ Hf Ho E). lra.
    + unfold final_score in Hf. lra.
Qed.

End WithVision.

Lemma toy_matcher_bounded : matcher_bounded Samples.toy_vision.
Proof. intros q t. cbn. lia. Defined.

Lemma verify_scores_range_witness :
  0 <= accuracy (verify_fingerprint Samples.toy_vision "two_ridges.png" "u1" Samples.db1) <= 100
  /\ 0 <= orb_score (verify_fingerprint Samples.toy_vision "two_ridges.png" "u1" Samples.db1) <= 100
  /\ 0 <= minutiae_score (verify_fingerprint Samples.toy_vision "two_ridges.png" "u1" Samples.db1) <= 100.
Proof.
  exact (verify_scores_range Samples.toy_vision "two_ridges.png" "u1" Samples.db1
           toy_matcher_bounded).
Defined.

Lemma match_requires_minutiae_witness :
  15 < minutiae_score
         (verify_fingerprint Samples.toy_vision "two_ridges.png" "u1" Samples.db1).
Proof.
  exact (match_requires_minutiae Samples.toy_vision "two_ridges.png" "u1" Samples.db1
           toy_matcher_bounded eq_refl).
Defined.

Lemma empty_template_never_matches_witness :
  match_ (verify_fingerprint Samples.toy_vision "two_ridges.png" "u2" Samples.db2) = false
  /\ minutiae_score
       (verify_fingerprint Samples.toy_vision "two_ridges.png" "u2" Samples.db2) == 0
  /\ accuracy
       (verify_fingerprint Samples.toy_vision "two_ridges.png" "u2" Samples.db2) <= 10.
Proof.
  exact (empty_template_never_matches Samples.toy_vision "two_ridges.png" "u2"
           Samples.db2 Samples.template2 toy_matcher_bounded eq_refl eq_refl).
Defined.

End ScoreBounds.

(** ** The HTTP routes *)

Module ServerFacts.
Import Grid Minutiae Scoring Database Pipeline Text Server.
Import StorageFacts EnrollmentFacts.

Section WithVision.
Context (V : vision) (file_save : string -> bool).

(** The messages [register_fingerprint] can return, and which of them
    make the route answer 200. *)
Lemma register_message (path uid uname ph : string) (db : gmap string row) :
  contains "success" (lower (fst (register_fingerprint V path uid uname ph db)))
  = true
  <-> fst (register_fingerprint V path uid uname ph db)
      = "Fingerprint registered successfully.".
Proof.
  unfold register_fingerprint, save_fingerprint.
  destruct (imread_grayscale V path) as [img|]; [|now cbn].
  destruct (is_image_blurry V img); [now cbn|].
  destruct (negb (is_fingerprint_present V path)); [now cbn|].
  destruct (no_descriptors _); [now cbn|].
  destruct (get_fingerprint_by_id uid db); [now cbn|].
  destruct (db !! uid); now cbn.
Qed.


End WithVision.

(** X18: [DELETE /delete/<user_id>] always answers 200; afterwards
    [GET /user/<user_id>] answers 404, the other users are answered as
    before, and deleting again changes nothing. *)
Theorem delete_route (uid : string) (db : gmap string row) :
  snd (fst (delete_user uid db)) = 200
  /\ get_user uid (snd (delete_user uid db)) = (message_body "User not found.", 404)
  /\ (forall uid', uid' <> uid ->
        get_user uid' (snd (delete_user uid db)) = get_user uid' db)
  /\ snd (delete_user uid (snd (delete_user uid db))) = snd (delete_user uid db).
Proof.
  unfold delete_user, delete_fingerprint, get_user. cbn [fst snd].
  split; [reflexivity|]. split; [now rewrite lookup_delete_eq|]. split.
  - intros uid' Hne. now rewrite lookup_delete_ne.
  - apply delete_delete_eq.
Qed.

(** X19: [GET /users] answers 200 with one entry per stored user: an
    entry with a given id and name is listed exactly when the row of
    that id holds that name in its [username] column. *)
Theorem users_route (db : gmap string row) :
  exists items,
    get_users db = (JArr items, 200)
    /\ length items = size db
    /\ forall u n,
         In [("user_id", JStr u); ("username", JStr n)] items
         <-> exists r, db !! u = Some r /\ row_username r = n.
Proof.
  unfold get_users. eexists. split; [reflexivity|]. split.
  - now rewrite length_map, length_map_to_list.
  - intros u n. rewrite in_map_iff. split.
    + intros ([u' r] & Heq & Hin). cbn [fst snd] in Heq.
      injection Heq as <- <-. exists r. split; [|reflexivity].
      apply elem_of_map_to_list. now apply list_elem_of_In.
    + intros (r & Hr & <-). exists (u, r). split; [reflexivity|].
      apply list_elem_of_In. now apply elem_of_map_to_list.
Qed.

End ServerFacts.

(** * The scores in binary64 *)

(** ** Order of the floating-point comparisons *)

Module Binary64Facts.
Import Binary64.

Ltac compare_cases :=
  repeat match goal with
  | H : context [Pos.compare_cont Eq ?a ?b] |- _ =>
      change (Pos.compare_cont Eq a b) with (Pos.compare a b) in H
  | |- context [Pos.compare_cont Eq ?a ?b] =>
      change (Pos.compare_cont Eq a b) with (Pos.compare a b)
  end;
  repeat match goal with
  | H : context [Z.compare ?a ?b] |- _ => destruct (Z.compare_spec a b); cbn in H
  | H : context [Pos.compare ?a ?b] |- _ => destruct (Pos.compare_spec a b); cbn in H
  | |- context [Z.compare ?a ?b] => destruct (Z.compare_spec a b); cbn
  | |- context [Pos.compare ?a ?b] => destruct (Pos.compare_spec a b); cbn
  end;
  try discriminate; try reflexivity; try lia.

Ltac by_float_cases3 a b c :=
  unfold ltb, leb, eqb, SFltb, SFleb, SFeqb, SFcompare;
  destruct a as [[|]|[|]| |[|] ? ?], b as [[|]|[|]| |[|] ? ?], c as [[|]|[|]| |[|] ? ?];
  try discriminate; try reflexivity; intros; compare_cases.

Ltac by_float_cases2 a b :=
  unfold ltb, leb, eqb, SFltb, SFleb, SFeqb, SFcompare;
  destruct a as [[|]|[|]| |[|] ? ?], b as [[|]|[|]| |[|] ? ?];
  try discriminate; try reflexivity; intros; compare_cases.

Lemma ltb_trans (a b c : float) :
  ltb a b = true -> ltb b c = true -> ltb a c = true.
Proof. by_float_cases3 a b c. Qed.

Lemma ltb_leb_trans (a b c : float) :
  ltb a b = true -> leb b c = true -> ltb a c = true.
Proof. by_float_cases3 a b c. Qed.

Lemma ltb_irrefl (a : float) : ltb a a = false.
Proof.
  unfold ltb, SFltb, SFcompare.
  destruct a as [[|]|[|]| |[|] ? ?]; try reflexivity; compare_cases.
Qed.

Lemma eqb_leb (a b : float) : eqb a b = true -> leb b a = true.
Proof. by_float_cases2 a b. Qed.

(** The literals are the correctly rounded quotients. *)
Example literals :
  lit_0_1 = div (of_nat 1) (of_nat 10) /\ lit_0_9 = div (of_nat 9) (of_nat 10).
Proof. split; reflexivity. Qed.

End Binary64Facts.

(** ** The running best in binary64 *)

Module Loop64Facts.
Import Binary64 Scoring64 Binary64Facts.

(** After the hypotheses [hs]: no hypothesis has a fused score above the
    running best, and the running best is the initial one or that of a
    hypothesis before which none had an equal or larger fused score. *)
Lemma loop_invariant64 (hs : list (option (float * float))) :
  (forall (k : nat) o m, hs !! k = Some (Some (o, m)) ->
     ltb (best_final_score (fold_left rescore hs best0)) (final_score o m) = false)
  /\ (fold_left rescore hs best0 = best0
      \/ exists (k : nat) o m,
           hs !! k = Some (Some (o, m))
           /\ fold_left rescore hs best0 = Best (final_score o m) o m
           /\ forall (k' : nat) o' m', (k' < k)%nat ->
                hs !! k' = Some (Some (o', m')) ->
                leb (final_score o m) (final_score o' m') = false).
Proof.
  induction hs as [|h hs [IHmax IHfirst]] using rev_ind.
  - split; [intros k o m H; discriminate | now left].
  - rewrite LoopFacts.fold_left_snoc. set (b := fold_left rescore hs best0) in *.
    destruct h as [[o m]|]; cbn [rescore].
    + unfold update_best. cbv zeta.
      destruct (ltb (best_final_score b) (final_score o m)) eqn:Elt.
      * (* a new best, at the last index *)
        cbn [best_final_score]. split.
        -- intros k o' m' H. apply lookup_snoc_Some in H.
           destruct H as [[_ H]|[_ H]].
           ++ destruct (ltb (final_score o m) (final_score o' m')) eqn:E;
                [|reflexivity].
              rewrite <- (IHmax k o' m' H). symmetry.
              eapply ltb_trans; eassumption.
           ++ injection H as <- <-. apply ltb_irrefl.
        -- right. exists (length hs), o, m. split; [|split; [reflexivity|]].
           ++ apply lookup_snoc_Some. right. auto.
           ++ intros k' o' m' Hk' H. apply lookup_snoc_Some in H.
              destruct H as [[_ H]|[Heq _]]; [|lia].
              destruct (leb (final_score o m) (final_score o' m')) eqn:E;
                [|reflexivity].
              rewrite <- (IHmax k' o' m' H). symmetry.
              eapply ltb_leb_trans; eassumption.
      * (* the best so far stands *)
        split.
        -- intros k o' m' H. apply lookup_snoc_Some in H.
           destruct H as [[_ H]|[_ H]]; [eauto|].
           injection H as <- <-. exact Elt.
        -- destruct IHfirst as [Hb|(k & o1 & m1 & Hk & Hb & Hfirst)];
             [now left|].
           right. exists k, o1, m1. split; [|split; [exact Hb|]].
           ++ rewrite lookup_app_l; [exact Hk | eapply lookup_lt_Some; exact Hk].
           ++ intros k' o' m' Hk' H. apply lookup_snoc_Some in H.
              destruct H as [[_ H]|[Heq _]]; [eauto|].
              apply lookup_lt_Some in Hk. lia.
    + split.
      * intros k o m H. apply lookup_snoc_Some in H.
        destruct H as [[_ H]|[_ H]]; [eauto | discriminate].
      * destruct IHfirst as [Hb|(k & o1 & m1 & Hk & Hb & Hfirst)];
          [now left|].
        right. exists k, o1, m1. split; [|split; [exact Hb|]].
        -- rewrite lookup_app_l; [exact Hk | eapply lookup_lt_Some; exact Hk].
        -- intros k' o' m' Hk' H. apply lookup_snoc_Some in H.
           destruct H as [[_ H]|[_ H]]; [eauto | discriminate].
Qed.

(** Rounding decides at the threshold: 1 match of 35 and 2 of 7 fuse to
    25.999999999999996, below 26, and are no match; 4 of 5 and 1 of 5
    fuse to 26.0 and are one.  In a loop the second pair replaces the
    first. *)
Example rounding_at_the_threshold :
  final_score (percentage 1 35 35) (percentage 2 7 7)
  = S754_finite false 7318349394477055 (-48)
  /\ is_match (rescore best0 (Some (percentage 1 35 35, percentage 2 7 7))) = false
  /\ final_score (percentage 4 5 5) (percentage 1 5 5) = of_nat 26
  /\ is_match (rescore best0 (Some (percentage 4 5 5, percentage 1 5 5))) = true
  /\ fold_left rescore
       [Some (percentage 1 35 35, percentage 2 7 7);
        Some (percentage 4 5 5, percentage 1 5 5)] best0
     = Best (of_nat 26) (of_nat 80) (of_nat 20).
Proof. repeat split; vm_compute; reflexivity. Qed.

End Loop64Facts.

(** ** Decision rule and best hypothesis *)

Module Pipeline64Facts.
Import Grid Minutiae Database Pipeline Binary64.
Import Scoring64 Pipeline64 Binary64Facts Loop64Facts.

(** C3 as stated fails.  A probe point at distance exactly 6 from the
    only stored point lies within a radius of 6 pixels, so the formula of
    the claim gives 100 * 1 / 1; the nearest-neighbour query leaves it
    out and the score is 0.  And with 1 point of 3 matched the program
    computes (1 / 3) * 100 = 33.33333333333333, which is below
    100 * 1 / 3 = 33.333333333333336. *)
Lemma minutiae_score_counterexample :
  Scoring.dist2 (0, 6) (0, 0) = 6 * 6
  /\ count_within_inclusive [(0, 0)] [(0, 6)] = 1%nat
  /\ accuracy_minutiae [(0, 6)] [(0, 0)] = zero
  /\ accuracy_minutiae [(0, 0); (50, 50); (90, 90)] [(0, 1)]
     = S754_finite false 4691249611844266 (-47)
  /\ div (mul (of_nat 100) (of_nat 1)) (of_nat 3)
     = S754_finite false 4691249611844267 (-47).
Proof. repeat split; vm_compute; reflexivity. Qed.

(** C3, as amended: when the probe and the stored minutiae sets are both
    non-empty, the minutiae score is [(k / max(|probe|, |stored|)) * 100]
    evaluated in binary64 in that order, [k] being the number of probe
    points that have a stored point strictly closer than 6 pixels; when
    either set is empty the score is 0. *)
Theorem minutiae_score_formula (probe stored : list point) :
  (probe <> [] -> stored <> [] ->
   accuracy_minutiae probe stored
   = mul (div (of_nat (Scoring.count_within stored probe))
              (of_nat (Nat.max (length probe) (length stored))))
         (of_nat 100))
  /\ (probe = [] \/ stored = [] -> accuracy_minutiae probe stored = zero)
  /\ (forall p, Scoring.within_radius stored p = true
                <-> exists q, In q stored /\ Scoring.dist2 p q < 6 * 6).
Proof.
  split; [|split].
  - intros Hp Hs. unfold accuracy_minutiae.
    destruct probe as [|p probe]; [congruence|].
    destruct stored as [|q stored]; [congruence|].
    cbn [length Nat.ltb Nat.leb andb].
    unfold percentage. now rewrite ScoringFacts.matched_minutiae_count.
  - intros [-> | ->]; unfold accuracy_minutiae; [reflexivity|].
    now rewrite andb_false_r.
  - intros p. unfold Scoring.within_radius. rewrite existsb_exists.
    split; intros (q & Hq & H); exists q; (split; [exact Hq|]);
      [apply Z.ltb_lt in H | apply Z.ltb_lt]; exact H.
Qed.

Lemma minutiae_score_formula_witness :
  accuracy_minutiae [(0, 0); (10, 10); (20, 26)] [(0, 5); (20, 20)]
  = mul (div (of_nat 1) (of_nat 3)) (of_nat 100).
Proof.
  apply (proj1 (minutiae_score_formula
                  [(0, 0); (10, 10); (20, 26)] [(0, 5); (20, 20)]));
    discriminate.
Defined.

Section WithVision.
Context (V : vision).

Lemma try_angle_rescore64 (base : image) (stored : template) (b : best) (a : Z) :
  try_angle V base stored b a = rescore b (angle_scores V base stored a).
Proof.
  unfold try_angle, angle_scores.
  now destruct (no_descriptors _).
Qed.

Lemma hypothesis_loop_rescore64 (base : image) (stored : template) :
  hypothesis_loop V base stored
  = fold_left rescore (map (angle_scores V base stored) angles) best0.
Proof.
  unfold hypothesis_loop. generalize best0. generalize angles.
  induction l as [|a l IH]; intros b; [reflexivity|].
  cbn [fold_left map]. now rewrite IH, try_angle_rescore64.
Qed.

Lemma verify_reaches64 (path uid : string) (db : gmap string row)
    (base : image) (stored : template) :
  reaches_loop V path uid db base stored ->
  verify_fingerprint V path uid db
  = decide_result stored (hypothesis_loop V base stored).
Proof.
  intros (Hread & Hblur & Hpres & Hget). unfold verify_fingerprint.
  now rewrite Hread, Hblur, Hpres, Hget.
Qed.

Lemma lookup_angles_map64 (base : image) (stored : template) (k : nat)
    (h : option (float * float)) :
  map (angle_scores V base stored) angles !! k = Some h
  <-> exists a, angles !! k = Some a /\ angle_scores V base stored a = h.
Proof.
  rewrite list_lookup_fmap_Some. split; intros (a & H1 & H2); exists a; auto.
Qed.

Lemma in_angles_lookup (base : image) (stored : template) (a : Z)
    (o m : float) :
  In a angles ->
  angle_scores V base stored a = Some (o, m) ->
  exists k : nat,
    map (angle_scores V base stored) angles !! k = Some (Some (o, m)).
Proof.
  intros Hin Hs. apply list_elem_of_In, list_elem_of_lookup in Hin.
  destruct Hin as [k Hk]. exists k. apply lookup_angles_map64. eauto.
Qed.

(** C1: in every verification call that reaches the hypothesis loop, a
    match is declared exactly when the best fused score is at least 26,
    or the descriptor score is above 45 and the minutiae score above 15,
    all compared in binary64; the status is [match_found] exactly on a
    match and [no_match] otherwise.  The reported scores are the two
    scores of one hypothesis together with their fusion
    [o * 0.1 + m * 0.9] (or the initial zeros when nothing was
    recorded), and no hypothesis has a fused score above the reported
    one.  A fused score equal to 26 is a match; one that is not at least
    26, without the fallback clause, is not. *)
Theorem decision_rule (path uid : string) (db : gmap string row)
    (base : image) (stored : template) :
  reaches_loop V path uid db base stored ->
  decision_rule_holds V base stored (verify_fingerprint V path uid db).
Proof.
  intros H. rewrite (verify_reaches64 _ _ _ _ _ H).
  unfold decision_rule_holds, decide_result.
  cbn [match_ status accuracy orb_score minutiae_score].
  rewrite hypothesis_loop_rescore64.
  destruct (loop_invariant64 (map (angle_scores V base stored) angles))
    as [Hmax Hfirst].
  set (b := fold_left rescore (map (angle_scores V base stored) angles) best0) in *.
  assert (Hrule : is_match b = true
                  <-> leb (of_nat 26) (best_final_score b) = true
                      \/ (ltb (of_nat 45) (best_orb_score b) = true
                          /\ ltb (of_nat 15) (best_minutiae_score b) = true)).
  { unfold is_match, MATCH_THRESHOLD.
    now rewrite orb_true_iff, andb_true_iff. }
  split; [exact Hrule|].
  split; [destruct (is_match b); split; (reflexivity || discriminate)|].
  split; [destruct (is_match b); split; (reflexivity || discriminate)|].
  split; [|split; [|split]].
  - destruct Hfirst as [->|(k & o & m & Hk & -> & _)]; [now right|].
    left. apply lookup_angles_map64 in Hk. destruct Hk as (a & Ha & Hs).
    exists a, o, m. cbn [best_final_score best_orb_score best_minutiae_score].
    split; [apply list_elem_of_In; eapply list_elem_of_lookup_2; exact Ha|].
    split; [exact Hs|]. repeat split; reflexivity.
  - intros a o m Hin Hs.
    destruct (in_angles_lookup _ _ _ _ _ Hin Hs) as [k Hk].
    exact (Hmax k o m Hk).
  - intros H26. apply eqb_leb in H26.
    assert (Hm : is_match b = true) by (apply Hrule; now left).
    now rewrite Hm.
  - intros Hlow Hfb.
    assert (Hm : is_match b = false).
    { unfold is_match, MATCH_THRESHOLD. now rewrite Hlow, Hfb. }
    now rewrite Hm.
Qed.

(** C4: over the fixed list of angles -10, -5, 0, 5, 10, the reported
    descriptor and minutiae scores are the pair of one hypothesis: no
    hypothesis has a fused score above that of this one, and none that
    comes earlier in the iteration has a fused score equal to or above
    it, so that among equal fused scores the earliest angle is the one
    reported.  Scores and comparisons are those of the program, in
    binary64. *)
Theorem best_hypothesis (path uid : string) (db : gmap string row)
    (base : image) (stored : template) :
  reaches_loop V path uid db base stored ->
  angles = [-10; -5; 0; 5; 10]
  /\ reports_first_best V base stored (verify_fingerprint V path uid db).
Proof.
  intros H. split; [reflexivity|].
  rewrite (verify_reaches64 _ _ _ _ _ H).
  unfold reports_first_best, decide_result.
  cbn [accuracy orb_score minutiae_score].
  rewrite hypothesis_loop_rescore64.
  destruct (loop_invariant64 (map (angle_scores V base stored) angles))
    as [Hmax Hfirst].
  destruct Hfirst as [Hb|(k & o & m & Hk & Hb & Hfirst)]; rewrite Hb in *.
  - right. cbn [best_final_score best_orb_score best_minutiae_score best0] in *.
    repeat (split; [reflexivity|]).
    intros a o m Hin Hs.
    destruct (in_angles_lookup _ _ _ _ _ Hin Hs) as [k Hk].
    exact (Hmax k o m Hk).
  - left. cbn [best_final_score best_orb_score best_minutiae_score] in *.
    apply lookup_angles_map64 in Hk. destruct Hk as (a & Ha & Hs).
    exists k, a, o, m.
    repeat (split; [first [assumption | reflexivity]|]). split.
    + intros a' o' m' Hin Hs'.
      destruct (in_angles_lookup _ _ _ _ _ Hin Hs') as [k' Hk'].
      exact (Hmax k' o' m' Hk').
    + intros k' a' o' m' Hlt Hk' Hs'. apply (Hfirst k'); [exact Hlt|].
      apply lookup_angles_map64. eauto.
Qed.

(** Both evaluations of the scores take the same path through the quality gate
    and the lookup, and report the same name. *)
Lemma same_path_as_exact (path uid : string) (db : gmap string row) :
  res_username (verify_fingerprint V path uid db)
  = Pipeline.res_username (Pipeline.verify_fingerprint V path uid db)
  /\ (forall st, In st ["error"; "blurry"; "no_fingerprint"; "no_user"] ->
        status (verify_fingerprint V path uid db) = st
        <-> Pipeline.status (Pipeline.verify_fingerprint V path uid db) = st).
Proof.
  unfold verify_fingerprint, Pipeline.verify_fingerprint.
  destruct (imread_grayscale V path) as [base|]; [|now cbn].
  destruct (is_image_blurry V base); [now cbn|].
  destruct (negb (is_fingerprint_present V path)); [now cbn|].
  destruct (get_fingerprint_by_id uid db) as [stored|]; [|now cbn].
  unfold decide_result, Pipeline.decide_result.
  cbn [res_username status Pipeline.res_username Pipeline.status].
  split; [reflexivity|]. intros st Hst.
  destruct (is_match _), (Scoring.is_match _);
    cbn in Hst; intuition (subst; discriminate).
Qed.

End WithVision.

Import Samples.

Lemma decision_rule_witness :
  decision_rule_holds toy_vision two_ridges template1
    (verify_fingerprint toy_vision "two_ridges.png" "u1" db1).
Proof.
  apply (decision_rule toy_vision "two_ridges.png" "u1" db1 two_ridges template1).
  exact PipelineFacts.toy_reaches_loop.
Defined.

Lemma best_hypothesis_witness :
  angles = [-10; -5; 0; 5; 10]
  /\ reports_first_best toy_vision two_ridges template1
       (verify_fingerprint toy_vision "two_ridges.png" "u1" db1).
Proof.
  apply (best_hypothesis toy_vision "two_ridges.png" "u1" db1 two_ridges template1).
  exact PipelineFacts.toy_reaches_loop.
Defined.

(** The same call in binary64: both scores are 100.0 and so is their
    fusion. *)
Example toy_verification :
  verify_fingerprint toy_vision "two_ridges.png" "u1" db1
  = Result "match_found" true (of_nat 100) (of_nat 100) (of_nat 100)
           (Some "Ann") "Match found".
Proof. vm_compute. reflexivity. Qed.

End Pipeline64Facts.

(** ** Storage with the write lock *)

Module ConnectionFacts.
Import Database Connections.

Lemma save_unblocked (collected : bool) (uid : string) (data : template)
    (st : store) :
  blocked collected st = false ->
  fst (save_fingerprint collected uid data st)
  = fst (Database.save_fingerprint uid data (rows st))
  /\ rows (snd (save_fingerprint collected uid data st))
     = snd (Database.save_fingerprint uid data (rows st)).
Proof.
  intros Hb. unfold save_fingerprint, Database.save_fingerprint. rewrite Hb.
  now destruct (rows st !! uid).
Qed.

(** X1: while no abandoned connection blocks the write,
    [save_fingerprint] inserts exactly when the user id is free, the
    template is then read back and the lock is free; on a taken id it
    answers with the duplicate message, leaves every row as it was and
    leaves the write lock held.  While the lock is held and the connection
    has not been collected, a save fails with the lock error and changes
    nothing, also under a free id.  In no case is an existing row changed
    or removed. *)
Theorem save_fingerprint_spec (collected : bool) (uid : string)
    (data : template) (st : store) :
  (blocked collected st = false -> rows st !! uid = None ->
   fst (save_fingerprint collected uid data st)
   = "Fingerprint registered successfully."
   /\ get_fingerprint_by_id uid (snd (save_fingerprint collected uid data st))
      = Some data
   /\ write_locked (snd (save_fingerprint collected uid data st)) = false)
  /\ (blocked collected st = false -> is_Some (rows st !! uid) ->
      save_fingerprint collected uid data st
      = ("User ID already registered.", Store (rows st) true))
  /\ (blocked collected st = true ->
      save_fingerprint collected uid data st
      = ("Error saving fingerprint: database is locked", st))
  /\ (forall uid' r, rows st !! uid' = Some r ->
        rows (snd (save_fingerprint collected uid data st)) !! uid' = Some r)
  /\ (blocked collected st = false -> is_Some (rows st !! uid) ->
      forall uid2 data2,
        save_fingerprint false uid2 data2
          (snd (save_fingerprint collected uid data st))
        = ("Error saving fingerprint: database is locked",
           Store (rows st) true)).
Proof.
  unfold save_fingerprint, get_fingerprint_by_id.
  destruct (blocked collected st) eqn:Eb.
  - split; [discriminate|]. split; [discriminate|]. split; [reflexivity|].
    split; [auto | discriminate].
  - destruct (rows st !! uid) as [r0|] eqn:E; cbn [fst snd rows write_locked].
    + split; [discriminate|]. split; [reflexivity|]. split; [discriminate|].
      split; [auto|]. intros _ _ uid2 data2. reflexivity.
    + split.
      * intros _ _. rewrite lookup_insert_eq. auto.
      * split; [intros _ [x Hx]; discriminate|]. split; [discriminate|]. split.
        -- intros uid' r Hr. rewrite lookup_insert_ne; [exact Hr|]. congruence.
        -- intros _ [x Hx]. discriminate.
Qed.

Lemma save_fingerprint_witness :
  save_fingerprint false "u9" Samples.template2
    (snd (save_fingerprint false "u1" Samples.template2 (Store Samples.db1 false)))
  = ("Error saving fingerprint: database is locked", Store Samples.db1 true).
Proof.
  apply (proj2 (proj2 (proj2 (proj2
           (save_fingerprint_spec false "u1" Samples.template2
              (Store Samples.db1 false)))))).
  - reflexivity.
  - exists (Row "Ann" "555" Samples.template1). reflexivity.
Defined.

(** X2: while no abandoned connection blocks the write,
    [delete_fingerprint] removes the user's row and no other, answers
    with the success message whether or not a row was there, and frees
    the id for a new save; while the lock is held it answers with the
    lock error and deletes nothing. *)
Theorem delete_fingerprint_spec (collected : bool) (uid : string) (st : store) :
  (blocked collected st = false ->
   fst (delete_fingerprint collected uid st)
   = "User " +:+ uid +:+ " deleted successfully."
   /\ get_fingerprint_by_id uid (snd (delete_fingerprint collected uid st)) = None
   /\ (forall uid', uid' <> uid ->
         rows (snd (delete_fingerprint collected uid st)) !! uid'
         = rows st !! uid')
   /\ (forall data c,
         fst (save_fingerprint c uid data (snd (delete_fingerprint collected uid st)))
         = "Fingerprint registered successfully."
         /\ get_fingerprint_by_id uid
              (snd (save_fingerprint c uid data
                      (snd (delete_fingerprint collected uid st))))
            = Some data))
  /\ (blocked collected st = true ->
      delete_fingerprint collected uid st
      = ("Error deleting fingerprint for user_id " +:+ uid
           +:+ ": database is locked", st)).
Proof.
  unfold delete_fingerprint, get_fingerprint_by_id.
  destruct (blocked collected st) eqn:Eb; (split; [|try discriminate; reflexivity]);
    [discriminate|].
  intros _. cbn [fst snd rows]. split; [reflexivity|].
  split; [now rewrite lookup_delete_eq|].
  split; [intros uid' Hne; now rewrite lookup_delete_ne|].
  intros data c. unfold save_fingerprint, blocked. cbn [write_locked rows andb].
  rewrite lookup_delete_eq. cbn [fst snd rows]. split; [reflexivity|].
  now rewrite lookup_insert_eq.
Qed.

Lemma delete_fingerprint_witness :
  delete_fingerprint false "u1"
    (snd (save_fingerprint false "u1" Samples.template2 (Store Samples.db1 false)))
  = ("Error deleting fingerprint for user_id u1: database is locked",
     Store Samples.db1 true).
Proof.
  exact (proj2 (delete_fingerprint_spec false "u1"
                  (snd (save_fingerprint false "u1" Samples.template2
                          (Store Samples.db1 false))))
           eq_refl).
Defined.

(** X3: while no abandoned connection blocks the write,
    [update_fingerprint] rewrites the [username] and [phone] columns of
    an existing row, creates no row for an absent user and answers with
    the success message in both cases; while the lock is held it answers
    with the lock error and changes nothing.  The template read back by
    [get_fingerprint_by_id], with the name serialized in it, is the same
    before and after for every user. *)
Theorem update_fingerprint_spec (collected : bool) (uid uname ph : string)
    (st : store) :
  (blocked collected st = false ->
   fst (update_fingerprint collected uid uname ph st)
   = "User " +:+ uid +:+ " updated successfully."
   /\ (forall r, rows st !! uid = Some r ->
         rows (snd (update_fingerprint collected uid uname ph st)) !! uid
         = Some (Row uname ph (row_descriptors r)))
   /\ (rows st !! uid = None ->
         rows (snd (update_fingerprint collected uid uname ph st)) = rows st)
   /\ (forall uid', uid' <> uid ->
         rows (snd (update_fingerprint collected uid uname ph st)) !! uid'
         = rows st !! uid'))
  /\ (blocked collected st = true ->
      update_fingerprint collected uid uname ph st
      = ("Error updating fingerprint for user_id " +:+ uid
           +:+ ": database is locked", st))
  /\ (forall uid',
        get_fingerprint_by_id uid' (snd (update_fingerprint collected uid uname ph st))
        = get_fingerprint_by_id uid' st).
Proof.
  unfold update_fingerprint, get_fingerprint_by_id.
  destruct (blocked collected st) eqn:Eb; cbn [fst snd rows].
  - split; [discriminate|]. split; reflexivity.
  - split; [|split; [discriminate|]].
    + intros _. split; [reflexivity|].
      split; [intros r Hr; now rewrite lookup_alter_eq, Hr|]. split.
      * intros Hnone. apply map_eq. intros k.
        destruct (decide (uid = k)) as [->|Hne].
        -- now rewrite lookup_alter_eq, Hnone.
        -- now rewrite lookup_alter_ne.
      * intros uid' Hne. now rewrite lookup_alter_ne.
    + intros uid'. destruct (decide (uid = uid')) as [->|Hne].
      * rewrite lookup_alter_eq. now destruct (rows st !! uid').
      * now rewrite lookup_alter_ne.
Qed.

Lemma update_fingerprint_witness :
  rows (snd (update_fingerprint false "u1" "Zoe" "999" (Store Samples.db1 false)))
    !! "u1"
  = Some (Row "Zoe" "999" Samples.template1).
Proof.
  destruct (proj1 (update_fingerprint_spec false "u1" "Zoe" "999"
                     (Store Samples.db1 false)) eq_refl) as (_ & H & _).
  exact (H (Row "Ann" "555" Samples.template1) eq_refl).
Defined.

End ConnectionFacts.

(** ** The upload routes *)

Module UploadFacts.
Import Grid Minutiae Scoring Database Pipeline Text Server.
Import EnrollmentFacts ServerFacts.

Section WithVision.
Context (V : vision) (file_save : string -> bool).

(** X15: [POST /register] answers 400 with no change when a field is
    missing or empty, and 500 with no change when the fields are there
    but saving the upload fails.  With the upload saved it answers 200 or
    400, with the message of [register_fingerprint] as body: 200 exactly
    when that message is the success message, and then the row is in the
    database under the given id, name and phone; on 400 the database is
    unchanged. *)
Theorem register_route (uuid_hex : string) (file uid uname ph : option string)
    (db : gmap string row) :
  (truthy file && truthy uid && truthy uname && truthy ph = false ->
   register V file_save uuid_hex file uid uname ph db
   = ((message_body "Missing required fields", 400), db))
  /\ (truthy file && truthy uid && truthy uname && truthy ph = true ->
      file_save (upload_path uuid_hex (default "" file)) = false ->
      register V file_save uuid_hex file uid uname ph db
      = ((ErrorPage, 500), db))
  /\ (truthy file && truthy uid && truthy uname && truthy ph = true ->
      file_save (upload_path uuid_hex (default "" file)) = true ->
      fst (fst (register V file_save uuid_hex file uid uname ph db))
      = message_body
          (fst (register_fingerprint V (upload_path uuid_hex (default "" file))
                  (default "" uid) (default "" uname) (default "" ph) db))
      /\ (snd (fst (register V file_save uuid_hex file uid uname ph db)) = 200
          \/ snd (fst (register V file_save uuid_hex file uid uname ph db)) = 400)
      /\ (snd (fst (register V file_save uuid_hex file uid uname ph db)) = 200
          <-> fst (register_fingerprint V
                     (upload_path uuid_hex (default "" file))
                     (default "" uid) (default "" uname) (default "" ph) db)
              = "Fingerprint registered successfully.")
      /\ (snd (fst (register V file_save uuid_hex file uid uname ph db)) = 400 ->
          snd (register V file_save uuid_hex file uid uname ph db) = db)
      /\ (snd (fst (register V file_save uuid_hex file uid uname ph db)) = 200 ->
          db !! default "" uid = None
          /\ exists t,
               snd (register V file_save uuid_hex file uid uname ph db)
                 !! default "" uid
               = Some (Row (default "" uname) (default "" ph) t))).
Proof.
  unfold register, internal_server_error.
  split; [intros ->; reflexivity|].
  split; [intros -> ->; reflexivity|].
  intros -> ->. cbn [negb].
  set (path := upload_path uuid_hex (default "" file)) in *.
  set (u := default "" uid). set (n := default "" uname). set (p := default "" ph).
  pose proof (register_message V path u n p db) as Hmsg.
  pose proof (register_fingerprint_spec V path u n p db) as (Hiff & Hok & Hfail & _).
  destruct (register_fingerprint V path u n p db) as [result db'] eqn:Ereg.
  cbn [fst snd] in *. split; [reflexivity|].
  destruct (contains "success" (lower result)) eqn:Ec.
  - assert (Hres : result = "Fingerprint registered successfully.")
      by now apply Hmsg.
    split; [now left|]. split; [tauto|]. split; [discriminate|].
    intros _. destruct (Hok Hres) as (t & _ & Hrow & _).
    split; [|eauto]. apply Hiff in Hres.
    destruct Hres as (img & _ & _ & _ & _ & Hfree). exact Hfree.
  - assert (Hres : result <> "Fingerprint registered successfully.").
    { intros H. apply Hmsg in H. congruence. }
    split; [now right|]. split; [|split; [|discriminate]].
    + split; [discriminate|]. intros H. contradiction.
    + intros _. now apply Hfail.
Qed.


End WithVision.

Import Samples.


Lemma register_route_witness :
  snd (fst (register served_vision save_ok "ab12" (Some "two_ridges.png")
              (Some "u1") (Some "Ann") (Some "555") ∅)) = 200.
Proof.
  destruct (register_route served_vision save_ok "ab12" (Some "two_ridges.png")
              (Some "u1") (Some "Ann") (Some "555") ∅) as (_ & _ & H).
  destruct (H eq_refl eq_refl) as (_ & _ & H200 & _).
  apply H200. reflexivity.
Defined.

(** The three ways to a 404 with the body of a failed match, and a 500. *)
Example verify_route_other_answers :
  snd (verify served_vision save_ok "ab12" (Some "lone_pair.png") (Some "u1") db_served)
  = 404
  /\ snd (verify served_vision save_ok "ab12" (Some "two_ridges.png") (Some "u404")
            db_served) = 404
  /\ snd (verify served_vision save_ok "ab12" (Some "dir/x.png") (Some "u1") db_served)
     = 500
  /\ snd (fst (register served_vision save_ok "ab12" (Some "dir/x.png") (Some "u7")
                 (Some "Eve") (Some "557") db_served)) = 500.
Proof. repeat split; reflexivity. Qed.

End UploadFacts.
